(** * Phish_NotPhish: URL feature extraction and the [/predict] handler

    A shallow embedding of [feature_extract.py] and [app.py].

    Conventions of the embedding.
    - A Python [str] is a [string]; its characters are read as the code
      points U+0000..U+00FF, so that [str.isdigit], [str.lower] and
      [str.strip] are given on all 256 of them as CPython defines them.
      Code points above U+00FF are outside the model.
    - A Python [int] is a [Z].  A Python [float] is the exact rational it
      approximates, a [Q]: the rounding of IEEE doubles is abstracted, and
      the literals [0.2] and [0.3] are read as 1/5 and 3/10.
    - A raised exception is the [Raise] branch of [result]; a division is
      a fallible operation that raises [ZeroDivisionError] on a zero
      divisor.
    - [urllib.parse.urlparse] is embedded from CPython's [urllib/parse.py].
      Two points of the standard library vary between releases and are
      parameters of the development: the validation of a bracketed host
      (absent before 3.11.4) and the limit on the number of digits that
      [int] converts (absent before 3.11). *)

From Stdlib Require Import ZArith QArith String Ascii List Bool Lia.
From stdpp Require Import gmap strings.

Local Open Scope string_scope.
Local Open Scope Z_scope.

(** ** Exceptions and fallible computations *)

Inductive exn : Type :=
  | ValueError
  | ZeroDivisionError
  | FileNotFoundError
  | AttributeError
  | KeyError
  | BadRequest
  | ModelError.

Inductive result (A : Type) : Type :=
  | Ok (a : A)
  | Raise (e : exn).

Arguments Ok {A} a.
Arguments Raise {A} e.

Definition bind {A B : Type} (r : result A) (k : A -> result B) : result B :=
  match r with
  | Ok a => k a
  | Raise e => Raise e
  end.

#[global] Instance result_bind : MBind result := fun A B k r => bind r k.
#[global] Instance result_ret : MRet result := fun A a => Ok a.

Definition is_ok {A : Type} (r : result A) : bool :=
  match r with Ok _ => true | Raise _ => false end.

(** ** Characters *)

Module Char.

Definition code (c : ascii) : N := N_of_ascii c.

Definition between (lo hi : N) (c : ascii) : bool :=
  ((lo <=? code c) && (code c <=? hi))%N.

(** [0-9]: the characters that [int] converts. *)
Definition is_decimal (c : ascii) : bool := between 48 57 c.

(** [ch.isdigit()]: the decimal digits and the superscripts
    U+00B2, U+00B3, U+00B9. *)
Definition isdigit (c : ascii) : bool :=
  is_decimal c
  || (code c =? 178)%N || (code c =? 179)%N || (code c =? 185)%N.

(** [a-z], the class of the regular expressions. *)
Definition is_az (c : ascii) : bool := between 97 122 c.

Definition is_AZ (c : ascii) : bool := between 65 90 c.

(** [ch.isascii() and ch.isalpha()]. *)
Definition is_ascii_alpha (c : ascii) : bool := is_az c || is_AZ c.

(** [ch.lower()]: A-Z and U+00C0..U+00DE except U+00D7 move up by 32. *)
Definition lower (c : ascii) : ascii :=
  if is_AZ c || (between 192 222 c && negb (code c =? 215)%N)
  then ascii_of_N (code c + 32)
  else c.

(** The characters removed by [str.strip()]. *)
Definition isspace (c : ascii) : bool :=
  between 9 13 c || between 28 32 c
  || (code c =? 133)%N || (code c =? 160)%N.

(** [_WHATWG_C0_CONTROL_OR_SPACE] of [urllib/parse.py]. *)
Definition is_c0_or_space (c : ascii) : bool := between 0 32 c.

(** [_UNSAFE_URL_BYTES_TO_REMOVE]: tab, carriage return, line feed. *)
Definition is_unsafe_url_byte (c : ascii) : bool :=
  (code c =? 9)%N || (code c =? 13)%N || (code c =? 10)%N.

(** [scheme_chars]: letters, digits and [+-.]. *)
Definition is_scheme_char (c : ascii) : bool :=
  is_ascii_alpha c || is_decimal c
  || (code c =? 43)%N || (code c =? 45)%N || (code c =? 46)%N.

Definition eqb (a b : ascii) : bool := Ascii.eqb a b.

End Char.

(** ** Python string operations *)

Module Str.

Fixpoint len (s : string) : Z :=
  match s with
  | EmptyString => 0
  | String _ r => 1 + len r
  end.

Fixpoint lower (s : string) : string :=
  match s with
  | EmptyString => EmptyString
  | String c r => String (Char.lower c) (lower r)
  end.

(** [sum(p(ch) for ch in s)] *)
Fixpoint count_if (p : ascii -> bool) (s : string) : Z :=
  match s with
  | EmptyString => 0
  | String c r => (if p c then 1 else 0) + count_if p r
  end.

Fixpoint all (p : ascii -> bool) (s : string) : bool :=
  match s with
  | EmptyString => true
  | String c r => p c && all p r
  end.

Fixpoint filter (p : ascii -> bool) (s : string) : string :=
  match s with
  | EmptyString => EmptyString
  | String c r => if p c then String c (filter p r) else filter p r
  end.

(** [s.startswith(p)] *)
Fixpoint startswith (p s : string) : bool :=
  match p, s with
  | EmptyString, _ => true
  | String a p', String b s' => Char.eqb a b && startswith p' s'
  | String _ _, EmptyString => false
  end.

(** [sub in s] *)
Fixpoint contains (sub s : string) : bool :=
  startswith sub s
  || match s with
     | EmptyString => false
     | String _ r => contains sub r
     end.

Definition contains_char (c : ascii) (s : string) : bool :=
  negb (all (fun d => negb (Char.eqb c d)) s).

(** [s.count(sub)]: occurrences found left to right without overlap.
    [skip] characters are still covered by the last occurrence. *)
Fixpoint count_from (sub s : string) (skip : nat) : Z :=
  match s with
  | EmptyString => 0
  | String _ r =>
      match skip with
      | S k => count_from sub r k
      | O =>
          if startswith sub s
          then 1 + count_from sub r (Nat.pred (String.length sub))
          else count_from sub r O
      end
  end.

Definition count (sub s : string) : Z :=
  match sub with
  | EmptyString => len s + 1
  | _ => count_from sub s O
  end.

(** [s.split(c)] for a one-character separator: never empty. *)
Fixpoint split (c : ascii) (s : string) : list string :=
  match s with
  | EmptyString => [EmptyString]
  | String d r =>
      if Char.eqb c d then EmptyString :: split c r
      else match split c r with
           | p :: ps => String d p :: ps
           | [] => [String d EmptyString]
           end
  end.

(** [parts[0]] and [parts[-1]] of a list of strings. *)
Definition first (parts : list string) : string := hd EmptyString parts.
Definition final (parts : list string) : string := List.last parts EmptyString.

(** [s.isdigit()]: not empty and every character a digit. *)
Definition isdigit (s : string) : bool :=
  match s with
  | EmptyString => false
  | _ => all Char.isdigit s
  end.

(** [s.lstrip(chars)], [s.strip()] *)
Fixpoint lstrip (p : ascii -> bool) (s : string) : string :=
  match s with
  | EmptyString => EmptyString
  | String c r => if p c then lstrip p r else s
  end.

Fixpoint rstrip (p : ascii -> bool) (s : string) : string :=
  match s with
  | EmptyString => EmptyString
  | String c r =>
      match rstrip p r with
      | EmptyString => if p c then EmptyString else String c EmptyString
      | t => String c t
      end
  end.

Definition strip (s : string) : string :=
  rstrip Char.isspace (lstrip Char.isspace s).

(** [s[:n]] and [s[n:]] *)
Fixpoint take (n : nat) (s : string) : string :=
  match n, s with
  | S k, String c r => String c (take k r)
  | _, _ => EmptyString
  end.

Fixpoint drop (n : nat) (s : string) : string :=
  match n, s with
  | S k, String _ r => drop k r
  | _, _ => s
  end.

(** [s.find(c)]: [None] stands for -1. *)
Fixpoint find (p : ascii -> bool) (s : string) : option nat :=
  match s with
  | EmptyString => None
  | String c r => if p c then Some O else option_map S (find p r)
  end.

End Str.

(** ** Python values and arithmetic *)

(** What a dictionary of this program holds: an [int], a [float], and,
    for the entries of a JSON document, text or [null]. *)
Inductive value : Type :=
  | VInt (n : Z)
  | VFloat (x : Q)
  | VStr (s : string)
  | VNone.


(** [a / b] on integers: true division. *)
Definition py_truediv (a b : Z) : result Q :=
  if b =? 0 then Raise ZeroDivisionError
  else Ok (inject_Z a / inject_Z b)%Q.

Definition Qltb (x y : Q) : bool := negb (Qle_bool y x).

(** The value of a string of decimal digits, most significant first. *)
Fixpoint decimal_value (acc : Z) (s : string) : Z :=
  match s with
  | EmptyString => acc
  | String c r => decimal_value (10 * acc + (Z.of_N (Char.code c) - 48)) r
  end.

(** ** Regular expressions of the extractor *)

Module Re.

Definition dot : ascii := "."%char.
Definition newline : ascii := ascii_of_N 10.

(** [$] without [re.MULTILINE]: the end of the text, or just before a
    newline that ends the text. *)
Definition at_end (s : string) : bool :=
  match s with
  | EmptyString => true
  | String c EmptyString => Char.eqb c newline
  | _ => false
  end.

(** [re.search]: the pattern matches at the start of some suffix. *)
Fixpoint search (m : string -> bool) (s : string) : bool :=
  m s
  || match s with
     | EmptyString => false
     | String _ r => search m r
     end.

(** [[a-z]{k}] followed by [rest]. *)
Fixpoint az_times (k : nat) (rest : string -> bool) (s : string) : bool :=
  match k with
  | O => rest s
  | S k' =>
      match s with
      | String c r => Char.is_az c && az_times k' rest r
      | EmptyString => false
      end
  end.

(** [[a-z]{2,4}] followed by [rest]. *)
Definition az_2_4 (rest : string -> bool) (s : string) : bool :=
  az_times 4 rest s || az_times 3 rest s || az_times 2 rest s.

Definition after_dot (m : string -> bool) (s : string) : bool :=
  match s with
  | String c r => Char.eqb c dot && m r
  | EmptyString => false
  end.

(** [\.[a-z]{2,4}($|/)] *)
Definition tld_then_end_or_slash : string -> bool :=
  after_dot (az_2_4 (fun s => at_end s || Str.startswith "/" s)).

(** [\.[a-z]{2,4}] *)
Definition tld : string -> bool :=
  after_dot (az_2_4 (fun _ => true)).

(** [\.(php|asp|aspx|jsp|html|cfm|cgi)$] *)
Definition extensions : list string :=
  ["php"; "asp"; "aspx"; "jsp"; "html"; "cfm"; "cgi"].

Definition extension_at_end : string -> bool :=
  after_dot (fun s =>
    existsb (fun e => Str.startswith e s && at_end (Str.drop (String.length e) s))
            extensions).

End Re.

(** ** [urllib.parse] *)

(** What varies between CPython releases. *)
Record Runtime : Type := {
  (** [_check_bracketed_netloc netloc] of [urllib/parse.py] accepts the
      network location; a release without this check accepts every one. *)
  check_bracketed_netloc : string -> bool;
  (** [sys.get_int_max_str_digits()]; 0 stands for no limit. *)
  int_max_str_digits : nat
}.

Section Interpreter.

Variable py : Runtime.

Record SplitResult : Type := {
  sr_scheme : string;
  sr_netloc : string;
  sr_path : string;
  sr_query : string;
  sr_fragment : string
}.

Record ParseResult : Type := {
  scheme : string;
  netloc : string;
  path : string;
  params : string;
  query : string;
  fragment : string
}.

Definition uses_params : list string :=
  [""; "ftp"; "hdl"; "prospero"; "http"; "imap";
   "https"; "shttp"; "rtsp"; "rtspu"; "sip"; "sips";
   "mms"; "sftp"; "tel"].

(** [url.find(c, start)] *)
Definition find_from (c : ascii) (start : nat) (url : string) : option nat :=
  option_map (Nat.add start) (Str.find (Char.eqb c) (Str.drop start url)).

(** [url.rfind(c)] *)
Fixpoint rfind (c : ascii) (url : string) : option nat :=
  match url with
  | EmptyString => None
  | String d r =>
      match rfind c r with
      | Some i => Some (S i)
      | None => if Char.eqb c d then Some O else None
      end
  end.

(** [url[a:b]] for [0 <= a], [0 <= b] *)
Definition slice (a b : nat) (url : string) : string :=
  Str.take (b - a) (Str.drop a url).

Definition _splitnetloc (url : string) (start : nat) : string * string :=
  let delim :=
    fold_left
      (fun delim c =>
         match find_from c start url with
         | Some wdelim => Nat.min delim wdelim
         | None => delim
         end)
      ["/"%char; "?"%char; "#"%char]
      (String.length url) in
  (slice start delim url, Str.drop delim url).

(** [_checknetloc]: it raises when NFKC normalisation of a non-ASCII
    network location brings in one of [/?#@:].  No code point up to
    U+00FF normalises to text with one of these, so on the strings of
    this model the check passes. *)
Definition _checknetloc (netloc : string) : result unit := Ok tt.

(** [url.split(c, 1)] when [c in url]; the text unchanged and [""]
    otherwise, which is what the caller's test leaves. *)
Definition split_once (c : ascii) (url : string) : string * string :=
  match Str.find (Char.eqb c) url with
  | Some i => (Str.take i url, Str.drop (S i) url)
  | None => (url, EmptyString)
  end.

Definition head_is_ascii_alpha (url : string) : bool :=
  match url with
  | String c _ => Char.is_ascii_alpha c
  | EmptyString => false
  end.

Definition urlsplit (url : string) : result SplitResult :=
  let url := Str.lstrip Char.is_c0_or_space url in
  let url := Str.filter (fun c => negb (Char.is_unsafe_url_byte c)) url in
  let '(scheme, url) :=
    match Str.find (Char.eqb ":") url with
    | Some (S _ as i) =>
        if head_is_ascii_alpha url
           && Str.all Char.is_scheme_char (Str.take i url)
        then (Str.lower (Str.take i url), Str.drop (S i) url)
        else (EmptyString, url)
    | _ => (EmptyString, url)
    end in
  '(netloc, url) ←
    (if String.eqb (Str.take 2 url) "//"
     then
       let '(netloc, rest) := _splitnetloc url 2 in
       let has_open := Str.contains_char "[" netloc in
       let has_close := Str.contains_char "]" netloc in
       if (has_open && negb has_close) || (has_close && negb has_open)
       then Raise ValueError
       else if has_open && has_close && negb (check_bracketed_netloc py netloc)
       then Raise ValueError
       else Ok (netloc, rest)
     else Ok (EmptyString, url));
  let '(url, fragment) := split_once "#" url in
  let '(url, query) := split_once "?" url in
  _ ← _checknetloc netloc;
  Ok {| sr_scheme := scheme; sr_netloc := netloc; sr_path := url;
        sr_query := query; sr_fragment := fragment |}.

Definition _splitparams (url : string) : string * string :=
  let i :=
    if Str.contains_char "/" url
    then match rfind "/" url with
         | Some j => find_from ";" j url
         | None => None
         end
    else Str.find (Char.eqb ";") url in
  match i with
  | Some i => (Str.take i url, Str.drop (S i) url)
  | None =>
      if Str.contains_char "/" url then (url, EmptyString)
      else (Str.take (String.length url - 1) url, url)
  end.

Definition urlparse (url : string) : result ParseResult :=
  sr ← urlsplit url;
  let '(url, params) :=
    if existsb (String.eqb (sr_scheme sr)) uses_params
       && Str.contains_char ";" (sr_path sr)
    then _splitparams (sr_path sr)
    else (sr_path sr, EmptyString) in
  Ok {| scheme := sr_scheme sr; netloc := sr_netloc sr; path := url;
        params := params; query := sr_query sr;
        fragment := sr_fragment sr |}.

(** [int(s)] for a text [s] on which [s.isdigit()] holds: the
    superscript digits are refused, and so is a text of more digits
    than the limit. *)
Definition py_int (s : string) : result Z :=
  if negb (Str.all Char.is_decimal s) then Raise ValueError
  else if (0 <? int_max_str_digits py)%nat
          && (int_max_str_digits py <? String.length s)%nat
  then Raise ValueError
  else Ok (decimal_value 0 s).


(** ** [feature_extract.py] *)

(** small list of known URL shortener hosts *)
Definition _SHORTENERS : gset string :=
  list_to_set
    ["bit.ly"; "tinyurl.com"; "t.co"; "goo.gl"; "ow.ly"; "buff.ly";
     "is.gd"; "tiny.cc"; "lc.chat"; "rebrand.ly"; "shorturl.at";
     "su.pr"; "trib.al"].

Definition _safe_len (s : option string) : Z :=
  match s with
  | None => 0
  | Some s => Str.len s
  end.

(** returns port number or 0 *)
Definition _has_port (netloc : string) : result Z :=
  if Str.contains_char ":" netloc then
    let parts := Str.split ":" netloc in
    if Str.isdigit (Str.final parts) then py_int (Str.final parts)
    else Ok 0
  else Ok 0.

(** The argument of the extractor: a [str], or another object, of
    which the code uses the truth value and the text [str(obj)]. *)
Inductive pyarg : Type :=
  | ArgStr (s : string)
  | ArgOther (truthy : bool) (text : string).

(** [if not isinstance(url, str): url = str(url or "")] *)
Definition coerce (arg : pyarg) : string :=
  match arg with
  | ArgStr s => s
  | ArgOther true text => text
  | ArgOther false _ => EmptyString
  end.

Definition suspicious_words : list string :=
  ["login"; "signin"; "secure"; "verify"; "update"; "account";
   "confirm"; "bank"; "paypal"; "ebay"].

Definition flag (b : bool) : value := VInt (if b then 1 else 0).

(** [digits / length if length > 0 else 0.0] *)
Definition ratio_or_zero (digits length : Z) : result Q :=
  if 0 <? length then py_truediv digits length else Ok 0%Q.

(** [_safe_len(host)>15 and (vowels/_safe_len(host) < 0.2
     or digits_host/_safe_len(host) > 0.3)], evaluated left to right
    with the short cuts of [and] and [or]. *)
Definition random_domain_test (host : string) (vowels digits_host : Z)
  : result bool :=
  if 15 <? _safe_len (Some host) then
    v ← py_truediv vowels (_safe_len (Some host));
    if Qltb v (1 # 5) then Ok true
    else
      d ← py_truediv digits_host (_safe_len (Some host));
      Ok (Qltb (3 # 10) d)
  else Ok false.

(** The text handed to [urlparse]. *)
Definition with_scheme (url : string) : string :=
  if Str.startswith "http://" url || Str.startswith "https://" url
  then url
  else "http://" ++ url.

Definition compute_url_superset_features (arg : pyarg)
  : result (gmap string value) :=
  let url := coerce arg in
  parsed ← urlparse (with_scheme url);
  let host := Str.lower (netloc parsed) in
  let path := path parsed in
  let query := query parsed in
  let whole := url in
  let features : gmap string value := ∅ in
  (* basic counts *)
  let length_url := _safe_len (Some whole) in
  let features := <["length_url" := VInt length_url]> features in
  let length_hostname := _safe_len (Some host) in
  let features := <["length_hostname" := VInt length_hostname]> features in
  let features := <["nb_dots" := VInt (Str.count "." whole)]> features in
  let features := <["nb_hyphens" := VInt (Str.count "-" whole)]> features in
  let features := <["nb_at" := VInt (Str.count "@" whole)]> features in
  let features := <["nb_qm" := VInt (Str.count "?" whole)]> features in
  let features := <["nb_and" := VInt (Str.count "&" whole)]> features in
  let features := <["nb_or" := VInt (Str.count "|" whole)]> features in
  let features := <["nb_eq" := VInt (Str.count "=" whole)]> features in
  let features := <["nb_underscore" := VInt (Str.count "_" whole)]> features in
  let features := <["nb_tilde" := VInt (Str.count "~" whole)]> features in
  let features := <["nb_percent" := VInt (Str.count "%" whole)]> features in
  let features := <["nb_slash" := VInt (Str.count "/" whole)]> features in
  let features := <["nb_star" := VInt (Str.count "*" whole)]> features in
  let features := <["nb_colon" := VInt (Str.count ":" whole)]> features in
  let features :=
    <["nb_com" := VInt (Str.count ".com" (Str.lower whole))]> features in
  let features :=
    <["nb_www" := VInt (Str.count "www" (Str.lower whole))]> features in
  let features :=
    <["nb_dslash" := VInt (Str.count "//" whole - 1)]> features in
  let features :=
    <["http_in_path" := flag (Str.contains "http" (Str.lower path))]>
      features in
  let features :=
    <["https_token" :=
        flag (Str.contains "https" host
              || Str.contains "https" (Str.lower whole))]> features in
  (* numeric ratios *)
  let digits := Str.count_if Char.isdigit whole in
  ratio_digits_url ← ratio_or_zero digits length_url;
  let features := <["ratio_digits_url" := VFloat ratio_digits_url]> features in
  let digits_host := Str.count_if Char.isdigit host in
  ratio_digits_host ← ratio_or_zero digits_host length_hostname;
  let features :=
    <["ratio_digits_host" := VFloat ratio_digits_host]> features in
  (* punycode detection *)
  let features :=
    <["punycode" :=
        flag (Str.startswith "xn--" host || Str.contains "xn--" host)]>
      features in
  (* port *)
  port ← _has_port host;
  let features := <["port" := VInt port]> features in
  (* tld in path/subdomain heuristics *)
  let features :=
    <["tld_in_path" :=
        flag (Re.search Re.tld_then_end_or_slash (Str.lower path))]>
      features in
  let features :=
    <["tld_in_subdomain" :=
        flag (Re.search Re.tld (Str.first (Str.split ":" host)))]>
      features in
  (* subdomain abnormalities *)
  let nb_subdomains := Str.count "." host in
  let features := <["nb_subdomains" := VInt nb_subdomains]> features in
  let features :=
    <["prefix_suffix" := flag (Str.contains "-" host)]> features in
  let vowels :=
    Str.count_if (fun ch => Str.contains_char ch "aeiou") host in
  random_domain ← random_domain_test host vowels digits_host;
  let features := <["random_domain" := flag random_domain]> features in
  (* shortening service *)
  let short := Str.first (Str.split ":" host) in
  let features :=
    <["shortening_service" := flag (bool_decide (short ∈ _SHORTENERS))]>
      features in
  (* path extension check *)
  let features :=
    <["path_extension" :=
        flag (Re.search Re.extension_at_end (Str.lower path))]> features in
  (* prefix suspicious words *)
  let features :=
    <["phish_hints" :=
        VInt (Z.of_nat
                (List.length
                   (List.filter
                      (fun w => Str.contains w (Str.lower whole))
                      suspicious_words)))]> features in
  (* a few boolean flags derivable *)
  let features :=
    <["abnormal_subdomain" := flag (3 <? nb_subdomains)]> features in
  let features := <["domain_in_brand" := VInt 0]> features in
  let features := <["brand_in_subdomain" := VInt 0]> features in
  let features := <["brand_in_path" := VInt 0]> features in
  Ok features.

(** *** The model adapter *)

(** The metadata document, a JSON object: [features] and [medians] are
    the entries of these names when the object has them. *)
Record Meta : Type := {
  meta_features : option (list string);
  meta_medians : option (gmap string value)
}.

(** The files that [json.load] reads as a JSON object, by path.  A path
    without an entry is a file that is missing, is not JSON, or is not
    an object: [open], [json.load] or [meta.get] raises on it. *)
Definition JsonFiles : Type := gmap string Meta.

(** A table of named columns; [None] is a missing cell (NaN). *)
Record DataFrame : Type := {
  df_columns : list string;
  df_rows : list (list (option value))
}.

(** [pd.DataFrame(records, columns=columns)] on a list of dictionaries:
    each record gives one row, read off by column name. *)
Definition pd_DataFrame (records : list (gmap string value))
    (columns : list string) : DataFrame :=
  {| df_columns := columns;
     df_rows := List.map (fun r => List.map (fun c => r !! c) columns) records |}.

Definition extract_features_for_model (fs : JsonFiles) (url : pyarg)
    (meta_path : string) : result DataFrame :=
  (* load meta *)
  meta ← match fs !! meta_path with
         | Some meta => Ok meta
         | None => Raise FileNotFoundError
         end;
  let model_features := default [] (meta_features meta) in
  let medians := default ∅ (meta_medians meta) in
  sup ← compute_url_superset_features url;
  (* assemble dict for model features *)
  let row :=
    fold_left
      (fun (row : gmap string value) feat =>
         match sup !! feat with
         | Some v => <[feat := v]> row
         | None => <[feat := default (VFloat 0) (medians !! feat)]> row
         end)
      model_features ∅ in
  (* return single-row DataFrame *)
  Ok (pd_DataFrame [row] model_features).

(** ** [app.py] *)

Definition MODEL_PATH : string := "robust_rf.pkl".
Definition META_PATH : string := "robust_meta.json".

(** The classifier artifact: [int(model.predict(X)[0])], and
    [model.predict_proba(X)[0].tolist()] when the object has the
    method. *)
Record Classifier : Type := {
  clf_predict : DataFrame -> result Z;
  clf_predict_proba : option (DataFrame -> result (list Q))
}.

(** The artifacts that [joblib.load] reads, by path. *)
Definition ModelFiles : Type := gmap string Classifier.

(** The module globals of [app.py]. *)
Record Globals : Type := {
  model : Classifier;
  meta : Meta;
  MODEL_FEATURES : list string
}.

(** The top level of [app.py], run once when the process starts. *)
Definition startup (models : ModelFiles) (fs : JsonFiles) : result Globals :=
  model ← match models !! MODEL_PATH with
          | Some m => Ok m
          | None => Raise FileNotFoundError
          end;
  meta ← match fs !! META_PATH with
         | Some m => Ok m
         | None => Raise FileNotFoundError
         end;
  MODEL_FEATURES ← match meta_features meta with
                   | Some l => Ok l
                   | None => Raise KeyError
                   end;
  Ok {| model := model; meta := meta; MODEL_FEATURES := MODEL_FEATURES |}.

#[warnings="-register-all"] Inductive json : Type :=
  | JNull
  | JBool (b : bool)
  | JInt (n : Z)
  | JFloat (x : Q)
  | JString (s : string)
  | JArray (l : list json)
  | JObject (l : list (string * json)).

(** The entry of a key in an object given by its members in document
    order: a later member replaces an earlier one of the same name. *)
Fixpoint member (key : string) (l : list (string * json)) : option json :=
  match l with
  | [] => None
  | (k, v) :: r =>
      match member key r with
      | Some w => Some w
      | None => if String.eqb k key then Some v else None
      end
  end.

(** The request: [request.is_json], [request.get_json()] and the
    fields of [request.form] in the order sent. *)
Record Request : Type := {
  is_json : bool;
  get_json : result json;
  form : list (string * string)
}.

(** [request.form.get(key, default)]: the first field of that name. *)
Fixpoint form_get (key default : string) (l : list (string * string))
  : string :=
  match l with
  | [] => default
  | (k, v) :: r => if String.eqb k key then v else form_get key default r
  end.

Inductive Body : Type :=
  (** [jsonify(fields)] *)
  | JsonBody (fields : list (string * json))
  (** [INDEX_HTML] rendered with the JSON text of [fields] as result *)
  | HtmlBody (fields : list (string * json))
  (** [jsonify] of the error marker, the message and the trace of [e] *)
  | ExceptionBody (e : exn).

Record Response : Type := {
  body : Body;
  status : Z
}.

(** [data.get("url", "").strip()] *)
Definition json_url (data : json) : result string :=
  match data with
  | JObject l =>
      match default (JString "") (member "url" l) with
      | JString s => Ok (Str.strip s)
      | _ => Raise AttributeError
      end
  | _ => Raise AttributeError
  end.

(** The [url] that the handler reads from the request, trimmed. *)
Definition request_url (request : Request) : result string :=
  if is_json request
  then data ← get_json request; json_url data
  else Ok (Str.strip (form_get "url" "" (form request))).

(** The fields of the result that a response carries. *)
Definition response_fields (r : Response) : list (string * json) :=
  match body r with
  | JsonBody fields | HtmlBody fields => fields
  | ExceptionBody _ => []
  end.

Definition predict (g : Globals) (fs : JsonFiles) (request : Request)
  : Response :=
  let attempt : result Response :=
    url ← request_url request;
    if String.eqb url "" then
      Ok {| body := JsonBody [("error", JString "no url provided")];
            status := 400 |}
    else
      X ← extract_features_for_model fs (ArgStr url) META_PATH;
      pred ← clf_predict (model g) X;
      proba ← match clf_predict_proba (model g) with
              | Some f => p ← f X; Ok (Some p)
              | None => Ok None
              end;
      let meaning := if pred =? 1 then "phishing" else "legitimate" in
      let resp :=
        [("url", JString url); ("prediction", JInt pred);
         ("meaning", JString meaning)] in
      let resp :=
        match proba with
        | Some p =>
            List.app resp [("probabilities", JArray (List.map JFloat p))]
        | None => resp
        end in
      if negb (is_json request)
      then Ok {| body := HtmlBody resp; status := 200 |}
      else Ok {| body := JsonBody resp; status := 200 |} in
  match attempt with
  | Ok r => r
  | Raise e => {| body := ExceptionBody e; status := 500 |}
  end.

End Interpreter.

(** ** Reference notions for the statements *)

(** The keys that [compute_url_superset_features] assigns, in the order
    of the assignments. *)
Definition FEATURE_KEYS : list string :=
  ["length_url"; "length_hostname"; "nb_dots"; "nb_hyphens"; "nb_at";
   "nb_qm"; "nb_and"; "nb_or"; "nb_eq"; "nb_underscore"; "nb_tilde";
   "nb_percent"; "nb_slash"; "nb_star"; "nb_colon"; "nb_com"; "nb_www";
   "nb_dslash"; "http_in_path"; "https_token"; "ratio_digits_url";
   "ratio_digits_host"; "punycode"; "port"; "tld_in_path";
   "tld_in_subdomain"; "nb_subdomains"; "prefix_suffix"; "random_domain";
   "shortening_service"; "path_extension"; "phish_hints";
   "abnormal_subdomain"; "domain_in_brand"; "brand_in_subdomain";
   "brand_in_path"].

(** [host] of the extractor: the network location in lower case. *)
Definition host_of (parsed : ParseResult) : string :=
  Str.lower (netloc parsed).

(** [short] of the extractor: the host up to its first colon. *)
Definition port_stripped (host : string) : string :=
  Str.first (Str.split ":" host).

(** The total number of occurrences of the suspicious keywords in the
    text of the URL, without regard to case. *)
Definition keyword_occurrences (url : string) : Z :=
  fold_right Z.add 0
    (List.map (fun w => Str.count w (Str.lower url)) suspicious_words).

(** The number of suspicious keywords that occur in the text of the URL
    at least once, without regard to case. *)
Definition keywords_present (url : string) : Z :=
  fold_right Z.add 0
    (List.map (fun w => if 0 <? Str.count w (Str.lower url) then 1 else 0)
              suspicious_words).

(** The port that a network location names: the number written by the
    decimal digits after its last colon, and 0 when it has no colon or
    the text after the last colon is empty or has another character. *)
Definition port_of_netloc (netloc : string) : Z :=
  if Str.contains_char ":" netloc then
    let segment := Str.final (Str.split ":" netloc) in
    match segment with
    | EmptyString => 0
    | _ => if Str.all Char.is_decimal segment
           then decimal_value 0 segment else 0
    end
  else 0.

(** A release of CPython 3.11 before 3.11.4: bracketed hosts are not
    validated, and [int] converts at most 4300 digits. *)
Definition cpython_3_11 : Runtime :=
  {| check_bracketed_netloc := fun _ => true; int_max_str_digits := 4300 |}.

(** The value of one feature of a URL given as text. *)
Definition feature (py : Runtime) (url key : string) : result (option value) :=
  feats ← compute_url_superset_features py (ArgStr url);
  Ok (feats !! key).

(** The features that count characters or substrings of the text, each
    with its count taken on the text as it was given. *)
Definition literal_counts (url : string) : list (string * value) :=
  [("length_url", VInt (Str.len url));
   ("nb_dots", VInt (Str.count "." url));
   ("nb_hyphens", VInt (Str.count "-" url));
   ("nb_at", VInt (Str.count "@" url));
   ("nb_qm", VInt (Str.count "?" url));
   ("nb_and", VInt (Str.count "&" url));
   ("nb_or", VInt (Str.count "|" url));
   ("nb_eq", VInt (Str.count "=" url));
   ("nb_underscore", VInt (Str.count "_" url));
   ("nb_tilde", VInt (Str.count "~" url));
   ("nb_percent", VInt (Str.count "%" url));
   ("nb_slash", VInt (Str.count "/" url));
   ("nb_star", VInt (Str.count "*" url));
   ("nb_colon", VInt (Str.count ":" url));
   ("nb_com", VInt (Str.count ".com" (Str.lower url)));
   ("nb_www", VInt (Str.count "www" (Str.lower url)));
   ("nb_dslash", VInt (Str.count "//" url - 1))].

(** The cell of a one-row table under a column, by position. *)
Definition cell (df : DataFrame) (i : nat) : option value :=
  match df_rows df with
  | [row] => mjoin (row !! i)
  | _ => None
  end.

(** What the assembled record holds for a feature of the model: the
    extracted value when the extractor has the feature, else the median
    recorded for it, else 0.0. *)
Definition expected_cell (sup medians : gmap string value) (feat : string)
  : value :=
match sup !! feat with
| Some v => v
| None =>
    match medians !! feat with
    | Some median => median
    | None => VFloat 0
    end
end.



(** A classifier for the examples: it reads the second column, and
    labels the record 1 when that cell is an integer above 50. *)
Definition example_classifier : Classifier :=
{| clf_predict := fun X =>
     match cell X 1 with
     | Some (VInt n) => Ok (if 50 <? n then 1 else 0)
     | _ => Raise ModelError
     end;
   clf_predict_proba := None |}.

(** Two metadata documents for the examples, with the same features and
    different medians. *)
Definition example_meta_low : Meta :=
{| meta_features := Some ["length_url"; "web_traffic"];
   meta_medians := Some {[ "web_traffic" := VInt 10 ]} |}.

Definition example_meta_high : Meta :=
{| meta_features := Some ["length_url"; "web_traffic"];
   meta_medians := Some {[ "web_traffic" := VInt 100 ]} |}.

Definition example_globals : Globals :=
{| model := example_classifier;
   meta := example_meta_low;
   MODEL_FEATURES := ["length_url"; "web_traffic"] |}.

(** The files of the examples: the metadata file with either document,
    no metadata file, and the classifier artifact. *)
Definition example_files_low : gmap string Meta :=
{[ META_PATH := example_meta_low ]}.

Definition example_files_high : gmap string Meta :=
{[ META_PATH := example_meta_high ]}.

Definition example_no_files : gmap string Meta := ∅.

Definition example_models : gmap string Classifier :=
{[ MODEL_PATH := example_classifier ]}.

(** A form post and a JSON post of a URL. *)
Definition form_post (url : string) : Request :=
{| is_json := false; get_json := Raise BadRequest; form := [("url", url)] |}.

Definition json_post (url : string) : Request :=
{| is_json := true; get_json := Ok (JObject [("url", JString url)]);
   form := [] |}.

(** ** Further reference notions *)

(** The features that the extractor writes as 1 or 0. *)
Definition flag_keys : list string :=
["http_in_path"; "https_token"; "punycode"; "tld_in_path";
 "tld_in_subdomain"; "prefix_suffix"; "random_domain";
 "shortening_service"; "path_extension"; "abnormal_subdomain"].

(** The brand features, for which the extractor has no logic. *)
Definition brand_keys : list string :=
["domain_in_brand"; "brand_in_subdomain"; "brand_in_path"].

(** The features that count occurrences in the text of the URL. *)
Definition count_keys : list string :=
["nb_dots"; "nb_hyphens"; "nb_at"; "nb_qm"; "nb_and"; "nb_or"; "nb_eq";
 "nb_underscore"; "nb_tilde"; "nb_percent"; "nb_slash"; "nb_star";
 "nb_colon"; "nb_com"; "nb_www"].

(** A character of the ASCII range. *)
Definition ascii_char (c : ascii) : bool := (Char.code c <? 128)%N.

(** A character that [urlsplit] keeps: not tab, carriage return or
    line feed. *)
Definition kept_by_urlsplit (c : ascii) : bool :=
negb (Char.is_unsafe_url_byte c).

(** The number of vowels and of digits of a host, as the random-domain
    test counts them. *)
Definition vowels_of (host : string) : Z :=
Str.count_if (fun ch => Str.contains_char ch "aeiou") host.

Definition digits_of (host : string) : Z :=
Str.count_if Char.isdigit host.

(** The first example document with one more median, for a feature that
    the extractor computes. *)
Definition example_meta_low_more : Meta :=
{| meta_features := Some ["length_url"; "web_traffic"];
   meta_medians :=
     Some (<[ "length_url" := VInt 999 ]> {[ "web_traffic" := VInt 10 ]}) |}.

Definition example_files_low_more : gmap string Meta :=
{[ META_PATH := example_meta_low_more ]}.

(** A JSON request whose body cannot be read. *)
Definition unreadable_json_post : Request :=
{| is_json := true; get_json := Raise BadRequest; form := [] |}.

(** * Properties *)

(** ** Fallible computations *)

Lemma bind_Ok_inv {A B : Type} (r : result A) (k : A -> result B) (b : B) :
  (r ≫= k) = Ok b -> exists a, r = Ok a /\ k a = Ok b.
Proof.
  destruct r as [a|e]; intros H.
  - exists a. split; [reflexivity | exact H].
  - discriminate H.
Qed.

Lemma bind_Ok {A B : Type} (r : result A) (k : A -> result B) (a : A) :
  r = Ok a -> (r ≫= k) = k a.
Proof. intros ->. reflexivity. Qed.



Lemma Ok_inj {A : Type} (a b : A) : Ok a = Ok b -> a = b.
Proof. intros H. injection H as H. exact H. Qed.

(** Read a key of a dictionary written as a chain of assignments. *)
Ltac dict_lookup :=
  repeat (rewrite lookup_insert_ne by (intro; discriminate));
  first [ rewrite lookup_insert_eq; reflexivity
        | rewrite lookup_empty; reflexivity ].

(** Split a successful run of the extractor into its fallible steps:
    the parse, the two ratios, the port and the random-domain test. *)
Ltac extractor_steps H parsed Hparse :=
  let ru := fresh "ru" in let Hru := fresh "Hru" in
  let rh := fresh "rh" in let Hrh := fresh "Hrh" in
  let port := fresh "port" in let Hport := fresh "Hport" in
  let rd := fresh "rd" in let Hrd := fresh "Hrd" in
  unfold compute_url_superset_features in H;
  cbv beta zeta in H;
  apply bind_Ok_inv in H as (parsed & Hparse & H); cbv beta zeta in H;
  apply bind_Ok_inv in H as (ru & Hru & H); cbv beta zeta in H;
  apply bind_Ok_inv in H as (rh & Hrh & H); cbv beta zeta in H;
  apply bind_Ok_inv in H as (port & Hport & H); cbv beta zeta in H;
  apply bind_Ok_inv in H as (rd & Hrd & H); cbv beta zeta in H;
  apply Ok_inj in H; subst.

(** ** Strings *)

Lemma len_nonneg (s : string) : 0 <= Str.len s.
Proof. induction s as [|c r IH]; simpl; lia. Qed.

Lemma count_if_bounds (p : ascii -> bool) (s : string) :
  0 <= Str.count_if p s <= Str.len s.
Proof.
  induction s as [|c r IH]; simpl; [lia|].
  destruct (p c); lia.
Qed.

Lemma count_from_nonneg (sub s : string) (skip : nat) :
  0 <= Str.count_from sub s skip.
Proof.
  revert skip. induction s as [|c r IH]; intros skip; simpl; [lia|].
  destruct skip as [|k]; [|apply IH].
  destruct (Str.startswith sub (String c r)).
  - pose proof (IH (Nat.pred (String.length sub))). lia.
  - apply IH.
Qed.

(** A keyword is in the text exactly when [count] finds it. *)
Lemma contains_iff_count (sub s : string) :
  sub <> EmptyString ->
  Str.contains sub s = (0 <? Str.count sub s).
Proof.
  intros Hsub. unfold Str.count.
  destruct sub as [|a sub']; [congruence|]. clear Hsub.
  induction s as [|c r IH].
  - reflexivity.
  - cbn [Str.contains Str.count_from].
    destruct (Str.startswith (String a sub') (String c r)) eqn:Hstart.
    + pose proof (count_from_nonneg (String a sub') r
                    (Nat.pred (String.length (String a sub')))).
      symmetry. apply Z.ltb_lt. lia.
    + rewrite IH. reflexivity.
Qed.

(** ** Arithmetic of the ratios *)

Lemma py_truediv_unit_interval (a b : Z) (x : Q) :
  0 <= a <= b -> py_truediv a b = Ok x -> (0 <= x /\ x <= 1)%Q.
Proof.
  intros Hab. unfold py_truediv.
  destruct (b =? 0) eqn:Hb; [discriminate|].
  intros H. apply Ok_inj in H. subst x.
  apply Z.eqb_neq in Hb.
  assert (Hpos : (0 < inject_Z b)%Q).
  { unfold Qlt, inject_Z. simpl. lia. }
  split.
  - apply Qle_shift_div_l; [exact Hpos|].
    unfold Qle, inject_Z, Qmult. simpl. lia.
  - apply Qle_shift_div_r; [exact Hpos|].
    unfold Qle, inject_Z, Qmult. simpl. lia.
Qed.

Lemma ratio_or_zero_total (digits length : Z) :
  exists x, ratio_or_zero digits length = Ok x.
Proof.
  unfold ratio_or_zero, py_truediv.
  destruct (0 <? length) eqn:Hl; [|eauto].
  apply Z.ltb_lt in Hl.
  destruct (length =? 0) eqn:H0; [apply Z.eqb_eq in H0; lia | eauto].
Qed.

Lemma ratio_or_zero_spec (digits length : Z) (x : Q) :
  0 <= digits <= length ->
  ratio_or_zero digits length = Ok x ->
  (0 <= x /\ x <= 1)%Q /\ (length = 0 -> x = 0%Q).
Proof.
  intros Hd. unfold ratio_or_zero.
  destruct (0 <? length) eqn:Hl; intros H.
  - split; [eapply py_truediv_unit_interval; eauto|].
    apply Z.ltb_lt in Hl. lia.
  - apply Ok_inj in H. subst x. split; [|reflexivity].
    split; unfold Qle; simpl; lia.
Qed.

Lemma random_domain_test_total (host : string) (vowels digits_host : Z) :
  exists b, random_domain_test host vowels digits_host = Ok b.
Proof.
  unfold random_domain_test, py_truediv.
  destruct (15 <? _safe_len (Some host)) eqn:Hl; [|eauto].
  apply Z.ltb_lt in Hl.
  destruct (_safe_len (Some host) =? 0) eqn:H0;
    [apply Z.eqb_eq in H0; lia|].
  cbn. destruct (Qltb _ _); eauto.
Qed.

(** ** The feature extractor *)

Section Extractor_properties.

Variable py : Runtime.





(** The extractor returns as soon as the parse and the port succeed. *)
Lemma extractor_runs (arg : pyarg) (parsed : ParseResult) (port : Z) :
  urlparse py (with_scheme (coerce arg)) = Ok parsed ->
  _has_port py (host_of parsed) = Ok port ->
  exists feats, compute_url_superset_features py arg = Ok feats.
Proof.
  intros Hparse Hport. unfold host_of in Hport.
  destruct (ratio_or_zero_total
              (Str.count_if Char.isdigit (coerce arg))
              (_safe_len (Some (coerce arg)))) as [ru Hru].
  destruct (ratio_or_zero_total
              (Str.count_if Char.isdigit (Str.lower (netloc parsed)))
              (_safe_len (Some (Str.lower (netloc parsed))))) as [rh Hrh].
  destruct (random_domain_test_total
              (Str.lower (netloc parsed))
              (Str.count_if (fun ch => Str.contains_char ch "aeiou")
                            (Str.lower (netloc parsed)))
              (Str.count_if Char.isdigit (Str.lower (netloc parsed))))
    as [rd Hrd].
  eexists. unfold compute_url_superset_features. cbv beta zeta.
  rewrite (bind_Ok _ _ _ Hparse). cbv beta zeta.
  rewrite (bind_Ok _ _ _ Hru). cbv beta zeta.
  rewrite (bind_Ok _ _ _ Hrh). cbv beta zeta.
  rewrite (bind_Ok _ _ _ Hport). cbv beta zeta.
  rewrite (bind_Ok _ _ _ Hrd). cbv beta zeta.
  reflexivity.
Qed.


Lemma extractor_keys (arg : pyarg) (feats : gmap string value) :
  compute_url_superset_features py arg = Ok feats ->
  dom feats = list_to_set FEATURE_KEYS.
Proof.
  intros H. extractor_steps H parsed Hparse.
  rewrite !dom_insert_L, dom_empty_L.
  apply (bool_decide_unpack _). vm_compute. exact I.
Qed.


End Extractor_properties.

(** ** Lower case and the port *)

Lemma lower_keeps_colon (d : ascii) :
  Char.eqb ":" (Char.lower d) = Char.eqb ":" d.
Proof. destruct d as [[] [] [] [] [] [] [] []]; reflexivity. Qed.

Lemma lower_keeps_decimal (d : ascii) :
  Char.is_decimal (Char.lower d) = Char.is_decimal d.
Proof. destruct d as [[] [] [] [] [] [] [] []]; reflexivity. Qed.

Lemma lower_fixes_decimal (d : ascii) :
  Char.is_decimal d = true -> Char.lower d = d.
Proof. destruct d as [[] [] [] [] [] [] [] []]; intros H; try reflexivity; discriminate H. Qed.

Lemma decimal_isdigit (d : ascii) :
  Char.is_decimal d = true -> Char.isdigit d = true.
Proof. unfold Char.isdigit. intros ->. reflexivity. Qed.

Lemma all_decimal_isdigit (s : string) :
  Str.all Char.is_decimal s = true -> Str.all Char.isdigit s = true.
Proof.
  induction s as [|c r IH]; cbn [Str.all]; [reflexivity|].
  intros H. apply andb_true_iff in H as [Hc Hr].
  rewrite (decimal_isdigit c Hc), (IH Hr). reflexivity.
Qed.

Lemma lower_all_decimal (s : string) :
  Str.all Char.is_decimal (Str.lower s) = Str.all Char.is_decimal s.
Proof.
  induction s as [|c r IH]; cbn [Str.all Str.lower]; [reflexivity|].
  rewrite lower_keeps_decimal, IH. reflexivity.
Qed.

Lemma lower_fixes_all_decimal (s : string) :
  Str.all Char.is_decimal s = true -> Str.lower s = s.
Proof.
  induction s as [|c r IH]; cbn [Str.all Str.lower]; [reflexivity|].
  intros H. apply andb_true_iff in H as [Hc Hr].
  rewrite (lower_fixes_decimal c Hc), (IH Hr). reflexivity.
Qed.

Lemma lower_contains_colon (s : string) :
  Str.contains_char ":" (Str.lower s) = Str.contains_char ":" s.
Proof.
  unfold Str.contains_char. f_equal.
  induction s as [|c r IH]; cbn [Str.all Str.lower]; [reflexivity|].
  rewrite lower_keeps_colon, IH. reflexivity.
Qed.

Lemma split_nonempty (c : ascii) (s : string) : Str.split c s <> [].
Proof.
  destruct s as [|d r]; simpl; [discriminate|].
  destruct (Char.eqb c d); [discriminate|].
  destruct (Str.split c r); discriminate.
Qed.

Lemma lower_split_colon (s : string) :
  Str.split ":" (Str.lower s) = List.map Str.lower (Str.split ":" s).
Proof.
  induction s as [|d r IH]; cbn [Str.split Str.lower]; [reflexivity|].
  rewrite lower_keeps_colon, IH.
  destruct (Char.eqb ":" d); [reflexivity|].
  destruct (Str.split ":" r) as [|p ps] eqn:Hsplit; [|reflexivity].
  exfalso. exact (split_nonempty _ _ Hsplit).
Qed.

Lemma final_map_lower (parts : list string) :
  Str.final (List.map Str.lower parts) = Str.lower (Str.final parts).
Proof.
  unfold Str.final.
  induction parts as [|p ps IH]; [reflexivity|].
  destruct ps as [|q qs]; [reflexivity|].
  exact IH.
Qed.

Lemma lower_empty (s : string) : Str.lower s = EmptyString -> s = EmptyString.
Proof. destruct s; [reflexivity | discriminate]. Qed.

(** The port that a network location names is not changed by putting
    the location in lower case. *)
Lemma port_of_netloc_lower (netloc : string) :
  port_of_netloc (Str.lower netloc) = port_of_netloc netloc.
Proof.
  unfold port_of_netloc.
  rewrite lower_contains_colon, lower_split_colon, final_map_lower.
  destruct (Str.contains_char ":" netloc); [|reflexivity].
  set (segment := Str.final (Str.split ":" netloc)).
  destruct segment as [|c r] eqn:Hseg; [reflexivity|].
  rewrite <- Hseg.
  destruct (Str.lower segment) as [|c' r'] eqn:Hlow.
  { apply lower_empty in Hlow. congruence. }
  rewrite <- Hlow, lower_all_decimal.
  destruct (Str.all Char.is_decimal segment) eqn:Hdec; [|reflexivity].
  rewrite (lower_fixes_all_decimal _ Hdec). reflexivity.
Qed.

Lemma has_port_value (py : Runtime) (netloc : string) (port : Z) :
  _has_port py netloc = Ok port -> port = port_of_netloc netloc.
Proof.
  unfold _has_port, port_of_netloc.
  destruct (Str.contains_char ":" netloc); [|intros H; apply Ok_inj in H; auto].
  set (segment := Str.final (Str.split ":" netloc)).
  unfold Str.isdigit, py_int.
  destruct segment as [|c r] eqn:Hseg.
  { intros H. apply Ok_inj in H. auto. }
  rewrite <- Hseg.
  destruct (Str.all Char.is_decimal segment) eqn:Hdec.
  - rewrite (all_decimal_isdigit _ Hdec). simpl.
    destruct (_ && _); [discriminate|].
    intros H. apply Ok_inj in H. auto.
  - simpl. destruct (Str.all Char.isdigit segment); [discriminate|].
    intros H. apply Ok_inj in H. auto.
Qed.

(** ** Counting keywords *)

Lemma present_as_sum (f : string -> bool) (g : string -> Z) (l : list string) :
  (forall w, In w l -> f w = (0 <? g w)) ->
  Z.of_nat (List.length (List.filter f l))
  = fold_right Z.add 0 (List.map (fun w => if 0 <? g w then 1 else 0) l).
Proof.
  induction l as [|w l IH]; intros Hf; [reflexivity|].
  cbn [List.filter List.map fold_right].
  rewrite <- IH by (intros; apply Hf; right; assumption).
  rewrite (Hf w) by (left; reflexivity).
  destruct (0 <? g w); [|lia].
  cbn [List.length]. lia.
Qed.

Lemma present_bounds (g : string -> Z) (l : list string) :
  (forall w, 0 <= g w) ->
  let present :=
    fold_right Z.add 0 (List.map (fun w => if 0 <? g w then 1 else 0) l) in
  0 <= present <= Z.of_nat (List.length l)
  /\ present <= fold_right Z.add 0 (List.map g l).
Proof.
  intros Hg. cbv zeta.
  induction l as [|w l IH]; [cbn; lia|].
  cbn [List.map fold_right List.length].
  pose proof (Hg w). destruct (0 <? g w) eqn:Hw.
  - apply Z.ltb_lt in Hw. lia.
  - lia.
Qed.

Lemma count_nonneg (sub s : string) : 0 <= Str.count sub s.
Proof.
  unfold Str.count. destruct sub.
  - pose proof (len_nonneg s). lia.
  - apply count_from_nonneg.
Qed.

(** ** Claims about the feature extractor *)

Lemma feature_of_run (py : Runtime) (url key : string)
    (feats : gmap string value) :
  compute_url_superset_features py (ArgStr url) = Ok feats ->
  feature py url key = Ok (feats !! key).
Proof. intros H. unfold feature. rewrite (bind_Ok _ _ _ H). reflexivity. Qed.

(** Run the extractor on a closed input: it returns some [feats]. *)
Ltac run_extractor feats E :=
  match goal with
  | |- context [compute_url_superset_features ?py ?arg] =>
      let Hok := fresh "Hok" in
      assert (Hok : is_ok (compute_url_superset_features py arg) = true)
        by (vm_compute; reflexivity);
      destruct (compute_url_superset_features py arg) as [feats|] eqn:E;
      [clear Hok | discriminate Hok]
  end.

Section Extractor_claims.

Variable py : Runtime.



(** C4, as amended.  [phish_hints] is the number of suspicious keywords
    that occur at least once in the lower-cased text of the URL: a
    keyword counts once however often it occurs, so the feature lies
    between 0 and 10 and never exceeds the number of occurrences. *)
Theorem phish_hints_counts_keywords_present (arg : pyarg)
    (feats : gmap string value) :
  compute_url_superset_features py arg = Ok feats ->
  feats !! "phish_hints" = Some (VInt (keywords_present (coerce arg)))
  /\ 0 <= keywords_present (coerce arg) <= 10
  /\ keywords_present (coerce arg) <= keyword_occurrences (coerce arg).
Proof.
  intros H. split.
  - extractor_steps H parsed Hparse.
    unfold keywords_present.
    rewrite <- (present_as_sum
                  (fun w => Str.contains w (Str.lower (coerce arg)))).
    + dict_lookup.
    + intros w Hw. apply contains_iff_count.
      unfold suspicious_words in Hw. cbn in Hw.
      intros ->. repeat (destruct Hw as [Hw|Hw]; [discriminate Hw|]).
      exact Hw.
  - pose proof (present_bounds
                  (fun w => Str.count w (Str.lower (coerce arg)))
                  suspicious_words
                  (fun w => count_nonneg w _)) as Hb.
    cbv zeta in Hb. exact Hb.
Qed.

(** C6.  Both digit ratios lie in the closed interval from 0 to 1; the
    ratio of the URL is 0.0 when the URL is empty, and the ratio of the
    host is 0.0 when the parsed host is empty. *)
Theorem digit_ratios_in_unit_interval (arg : pyarg)
    (feats : gmap string value) (parsed : ParseResult) :
  compute_url_superset_features py arg = Ok feats ->
  urlparse py (with_scheme (coerce arg)) = Ok parsed ->
  exists ratio_url ratio_host : Q,
    feats !! "ratio_digits_url" = Some (VFloat ratio_url)
    /\ feats !! "ratio_digits_host" = Some (VFloat ratio_host)
    /\ (0 <= ratio_url /\ ratio_url <= 1)%Q
    /\ (0 <= ratio_host /\ ratio_host <= 1)%Q
    /\ (Str.len (coerce arg) = 0 -> ratio_url = 0%Q)
    /\ (Str.len (host_of parsed) = 0 -> ratio_host = 0%Q).
Proof.
  intros H Hparse. extractor_steps H parsed' Hparse'.
  assert (parsed' = parsed) as -> by congruence.
  apply ratio_or_zero_spec in Hru; [|apply count_if_bounds].
  apply ratio_or_zero_spec in Hrh; [|apply count_if_bounds].
  exists ru, rh. unfold host_of.
  split; [dict_lookup|]. split; [dict_lookup|].
  cbn [_safe_len] in Hru, Hrh. tauto.
Qed.

(** C7.  [nb_dslash] is the number of occurrences of "//" in the text
    as given, less 1, with no condition on the subtraction; a text
    without "//" gets -1, as "example.com" does. *)
Theorem nb_dslash_subtracts_unconditionally :
  (forall arg feats,
      compute_url_superset_features py arg = Ok feats ->
      feats !! "nb_dslash" = Some (VInt (Str.count "//" (coerce arg) - 1))
      /\ (Str.contains "//" (coerce arg) = false ->
          feats !! "nb_dslash" = Some (VInt (-1))))
  /\ Str.contains "//" "example.com" = false
  /\ feature py "example.com" "nb_dslash" = Ok (Some (VInt (-1))).
Proof.
  assert (Hval : forall arg feats,
             compute_url_superset_features py arg = Ok feats ->
             feats !! "nb_dslash"
             = Some (VInt (Str.count "//" (coerce arg) - 1))).
  { intros arg feats H. extractor_steps H parsed Hparse. dict_lookup. }
  split; [|split; [reflexivity|]].
  - intros arg feats H. split; [apply Hval; exact H|].
    intros Hno. rewrite (Hval arg feats H).
    rewrite contains_iff_count in Hno by discriminate.
    apply Z.ltb_ge in Hno. pose proof (count_nonneg "//" (coerce arg)).
    do 2 f_equal. lia.
  - destruct (extractor_runs py (ArgStr "example.com")
                {| scheme := "http"; netloc := "example.com"; path := "";
                   params := ""; query := ""; fragment := "" |} 0)
      as [feats Hf]; [reflexivity | reflexivity |].
    rewrite (feature_of_run _ _ _ _ Hf).
    rewrite (Hval _ _ Hf). reflexivity.
Qed.

(** C9.  [shortening_service] is 1 exactly when the host, cut at its
    first colon, is one of the entries of the shortener set, and 0
    otherwise; membership is equality with an entry, so "bit.ly" is in
    and "example.com" and hosts that only contain an entry are out. *)
Theorem shortening_service_exact_match (arg : pyarg)
    (feats : gmap string value) (parsed : ParseResult) :
  compute_url_superset_features py arg = Ok feats ->
  urlparse py (with_scheme (coerce arg)) = Ok parsed ->
  (exists n,
      feats !! "shortening_service" = Some (VInt n)
      /\ (n = 1 <-> (port_stripped (host_of parsed) ∈ _SHORTENERS))
      /\ (n = 0 <-> (port_stripped (host_of parsed) ∉ _SHORTENERS)))
  /\ (forall h : string,
         h ∈ _SHORTENERS <->
         h ∈ ["bit.ly"; "tinyurl.com"; "t.co"; "goo.gl"; "ow.ly";
              "buff.ly"; "is.gd"; "tiny.cc"; "lc.chat"; "rebrand.ly";
              "shorturl.at"; "su.pr"; "trib.al"])
  /\ port_stripped "bit.ly:8080" = "bit.ly"
  /\ ("bit.ly" ∈ _SHORTENERS)
  /\ ("example.com" ∉ _SHORTENERS)
  /\ ("bit.ly.example.com" ∉ _SHORTENERS)
  /\ ("notbit.ly" ∉ _SHORTENERS).
Proof.
  intros H Hparse. extractor_steps H parsed' Hparse'.
  assert (parsed' = parsed) as -> by congruence.
  assert (Hmem : forall h : string,
             h ∈ _SHORTENERS <->
             h ∈ ["bit.ly"; "tinyurl.com"; "t.co"; "goo.gl"; "ow.ly";
                  "buff.ly"; "is.gd"; "tiny.cc"; "lc.chat"; "rebrand.ly";
                  "shorturl.at"; "su.pr"; "trib.al"]).
  { intros h. unfold _SHORTENERS. apply elem_of_list_to_set. }
  split; [|split; [exact Hmem|split; [reflexivity|]]].
  - unfold port_stripped, host_of.
    set (short := Str.first (Str.split ":" (Str.lower (netloc parsed)))).
    exists (if bool_decide (short ∈ _SHORTENERS) then 1 else 0).
    split; [dict_lookup|].
    destruct (bool_decide (short ∈ _SHORTENERS)) eqn:Hb.
    + apply bool_decide_eq_true in Hb. split; split; intros; try done.
    + apply bool_decide_eq_false in Hb. split; split; intros; try done.
  - repeat split; apply (bool_decide_unpack _); vm_compute; exact I.
Qed.

(** C10.  [port] carries the number of the port, not a flag: it is the
    number written by the decimal digits after the last colon of the
    network location, and 0 when there is no colon or the text after
    the last colon is not a run of digits; port 8080 gives 8080. *)
Theorem port_is_numeric_value (arg : pyarg)
    (feats : gmap string value) (parsed : ParseResult) :
  compute_url_superset_features py arg = Ok feats ->
  urlparse py (with_scheme (coerce arg)) = Ok parsed ->
  feats !! "port" = Some (VInt (port_of_netloc (netloc parsed)))
  /\ port_of_netloc "example.com:8080" = 8080
  /\ port_of_netloc "example.com" = 0
  /\ port_of_netloc "example.com:http" = 0.
Proof.
  intros H Hparse. extractor_steps H parsed' Hparse'.
  assert (parsed' = parsed) as -> by congruence.
  split; [|repeat split; reflexivity].
  apply has_port_value in Hport.
  rewrite port_of_netloc_lower in Hport. subst port.
  dict_lookup.
Qed.

End Extractor_claims.

Section Literal_counts.

Variable py : Runtime.

(** C8.  For a text without the "http://" or "https://" prefix, the
    prefix is put in front only of the text that is parsed; the
    features that count characters and substrings are taken on the
    text as given, whose counts differ from those of the prefixed
    text by the length, the slashes and the colon of the prefix. *)
Theorem literal_counts_ignore_synthetic_scheme (url : string)
    (feats : gmap string value) :
  Str.startswith "http://" url = false ->
  Str.startswith "https://" url = false ->
  compute_url_superset_features py (ArgStr url) = Ok feats ->
  with_scheme url = "http://" ++ url
  /\ (exists parsed, urlparse py ("http://" ++ url) = Ok parsed)
  /\ (forall key v, In (key, v) (literal_counts url) -> feats !! key = Some v)
  /\ Str.len ("http://" ++ url) = Str.len url + 7
  /\ Str.count "/" ("http://" ++ url) = Str.count "/" url + 2
  /\ Str.count ":" ("http://" ++ url) = Str.count ":" url + 1
  /\ Str.count "//" ("http://" ++ url) - 1 = Str.count "//" url.
Proof.
  intros Hhttp Hhttps H.
  assert (Hwith : with_scheme url = "http://" ++ url).
  { unfold with_scheme. rewrite Hhttp, Hhttps. reflexivity. }
  split; [exact Hwith|].
  extractor_steps H parsed Hparse.
  cbn [coerce] in Hparse. rewrite Hwith in Hparse.
  split; [exists parsed; exact Hparse|].
  split.
  - intros key v Hin. unfold literal_counts in Hin. cbn [In coerce] in *.
    repeat (destruct Hin as [Hin|Hin];
            [injection Hin as <- <-; dict_lookup|]).
    contradiction.
  - repeat split; cbv [String.append]; cbn; lia.
Qed.

End Literal_counts.

(** ** The extractor on concrete texts *)



(** C4, counterexample.  The text "login-login" holds the keyword
    "login" twice: the occurrences number 2 and [phish_hints] is 1. *)
Lemma phish_hints_counts_repeated_keyword_once :
  keyword_occurrences "login-login" = 2
  /\ feature cpython_3_11 "login-login" "phish_hints" = Ok (Some (VInt 1))
  /\ feature cpython_3_11 "login-login" "phish_hints"
     <> Ok (Some (VInt (keyword_occurrences "login-login"))).
Proof.
  split; [vm_compute; reflexivity|].
  assert (H : feature cpython_3_11 "login-login" "phish_hints"
              = Ok (Some (VInt 1))) by (vm_compute; reflexivity).
  split; [exact H|]. rewrite H. vm_compute. discriminate.
Qed.

Lemma phish_hints_witness :
  feature cpython_3_11 "http://paypal.example/login/login" "phish_hints"
  = Ok (Some (VInt 2)).
Proof.
  unfold feature. run_extractor feats E.
  destruct (phish_hints_counts_keywords_present cpython_3_11 _ _ E)
    as [Hval _].
  cbn [mbind result_bind bind]. rewrite Hval. vm_compute. reflexivity.
Defined.

Lemma digit_ratios_witness :
  feature cpython_3_11 "" "ratio_digits_host" = Ok (Some (VFloat 0)).
Proof.
  unfold feature. run_extractor feats E.
  assert (Hparse : urlparse cpython_3_11 (with_scheme (coerce (ArgStr "")))
                   = Ok {| scheme := "http"; netloc := ""; path := "";
                           params := ""; query := ""; fragment := "" |})
    by (vm_compute; reflexivity).
  destruct (digit_ratios_in_unit_interval cpython_3_11 _ _ _ E Hparse)
    as (ratio_url & ratio_host & _ & Hhost & _ & _ & _ & Hzero).
  cbn [mbind result_bind bind]. rewrite Hhost, Hzero; reflexivity.
Defined.

Lemma nb_dslash_witness :
  feature cpython_3_11 "http://example.com//a//b" "nb_dslash"
  = Ok (Some (VInt 2)).
Proof.
  unfold feature. run_extractor feats E.
  destruct (proj1 (nb_dslash_subtracts_unconditionally cpython_3_11) _ _ E)
    as [Hval _].
  cbn [mbind result_bind bind]. rewrite Hval. vm_compute. reflexivity.
Defined.

Lemma shortening_service_witness :
  feature cpython_3_11 "http://Bit.ly:8080/abc" "shortening_service"
  = Ok (Some (VInt 1)).
Proof.
  unfold feature. run_extractor feats E.
  assert (Hparse : urlparse cpython_3_11
                     (with_scheme (coerce (ArgStr "http://Bit.ly:8080/abc")))
                   = Ok {| scheme := "http"; netloc := "Bit.ly:8080";
                           path := "/abc"; params := ""; query := "";
                           fragment := "" |})
    by (vm_compute; reflexivity).
  destruct (shortening_service_exact_match cpython_3_11 _ _ _ E Hparse)
    as ((n & Hval & Hone & _) & _).
  cbn [mbind result_bind bind]. rewrite Hval.
  replace n with 1; [reflexivity|].
  symmetry. apply Hone. apply (bool_decide_unpack _). vm_compute. exact I.
Defined.

Lemma port_witness :
  feature cpython_3_11 "http://example.com:8080/" "port"
  = Ok (Some (VInt 8080)).
Proof.
  unfold feature. run_extractor feats E.
  assert (Hparse : urlparse cpython_3_11
                     (with_scheme (coerce (ArgStr "http://example.com:8080/")))
                   = Ok {| scheme := "http"; netloc := "example.com:8080";
                           path := "/"; params := ""; query := "";
                           fragment := "" |})
    by (vm_compute; reflexivity).
  destruct (port_is_numeric_value cpython_3_11 _ _ _ E Hparse) as [Hval _].
  cbn [mbind result_bind bind]. rewrite Hval. reflexivity.
Defined.

Lemma literal_counts_witness :
  feature cpython_3_11 "example.com/a" "nb_slash" = Ok (Some (VInt 1)).
Proof.
  unfold feature. run_extractor feats E.
  destruct (literal_counts_ignore_synthetic_scheme cpython_3_11
              "example.com/a" feats eq_refl eq_refl E)
    as (_ & _ & Hcounts & _).
  cbn [mbind result_bind bind].
  rewrite (Hcounts "nb_slash" (VInt (Str.count "/" "example.com/a"))).
  - reflexivity.
  - unfold literal_counts. cbn [In]. do 11 right. left. reflexivity.
Defined.

(** ** The model adapter *)

Section Adapter_claims.

Variable py : Runtime.

(** The dictionary that the loop of [extract_features_for_model] builds
    holds, for a key, the expected cell when the key is a feature of the
    model, and what it held before otherwise. *)
Lemma assembled_row_lookup (sup medians : gmap string value)
    (model_features : list string) (row : gmap string value) (feat : string) :
  fold_left
    (fun (row : gmap string value) feat =>
       match sup !! feat with
       | Some v => <[feat := v]> row
       | None => <[feat := default (VFloat 0) (medians !! feat)]> row
       end)
    model_features row !! feat
  = if decide (feat ∈ model_features)
    then Some (expected_cell sup medians feat)
    else row !! feat.
Proof.
  revert row. induction model_features as [|f l IH]; intros row.
  - cbn. destruct (decide (feat ∈ [])) as [Hin|_]; [|reflexivity].
    apply elem_of_nil in Hin. contradiction.
  - cbn [fold_left]. rewrite IH.
    destruct (decide (feat ∈ l)) as [Hl|Hl].
    + rewrite decide_True by (right; exact Hl). reflexivity.
    + destruct (decide (feat = f)) as [->|Hne].
      * rewrite decide_True by left.
        unfold expected_cell.
        destruct (sup !! f); [apply lookup_insert_eq|].
        rewrite lookup_insert_eq. destruct (medians !! f); reflexivity.
      * rewrite decide_False
          by (intros Hin; apply elem_of_cons in Hin as [?|?]; contradiction).
        destruct (sup !! f); apply lookup_insert_ne; congruence.
Qed.

(** C1.  With a metadata document that has [features] and [medians],
    the table handed to the classifier has the features of the document
    as its columns, in that order, and one row; the cell under a feature
    is the extracted value when the extractor has the feature, else the
    median recorded for it, else 0.0. *)
Theorem model_record_follows_metadata (fs : JsonFiles) (arg : pyarg)
    (meta_path : string) (doc : Meta) (model_features : list string)
    (medians sup : gmap string value) :
  fs !! meta_path = Some doc ->
  meta_features doc = Some model_features ->
  meta_medians doc = Some medians ->
  compute_url_superset_features py arg = Ok sup ->
  exists X,
    extract_features_for_model py fs arg meta_path = Ok X
    /\ df_columns X = model_features
    /\ df_rows X
       = [List.map (fun feat => Some (expected_cell sup medians feat))
                   model_features]
    /\ (forall i feat,
           model_features !! i = Some feat ->
           cell X i
           = Some (match sup !! feat with
                   | Some v => v
                   | None => match medians !! feat with
                             | Some median => median
                             | None => VFloat 0
                             end
                   end)).
Proof.
  intros Hfile Hfeatures Hmedians Hsup.
  unfold extract_features_for_model.
  rewrite Hfile. cbn [mbind result_bind bind]. cbv beta zeta.
  rewrite Hfeatures, Hmedians. cbn [from_option].
  change (id model_features) with model_features.
  change (id medians) with medians. rewrite Hsup.
  cbn [mbind result_bind bind].
  eexists. split; [reflexivity|]. split; [reflexivity|].
  assert (Hrows :
    List.map
      (fun c =>
         fold_left
           (fun (row : gmap string value) feat =>
              match sup !! feat with
              | Some v => <[feat := v]> row
              | None => <[feat := default (VFloat 0) (medians !! feat)]> row
              end)
           model_features ∅ !! c)
      model_features
    = List.map (fun feat => Some (expected_cell sup medians feat))
               model_features).
  { apply map_ext_in. intros feat Hin.
    rewrite assembled_row_lookup.
    apply decide_True. apply list_elem_of_In. exact Hin. }
  split.
  - unfold pd_DataFrame. cbn [df_rows List.map]. rewrite Hrows. reflexivity.
  - intros i feat Hi. unfold cell, pd_DataFrame. cbn [df_rows List.map].
    rewrite Hrows. rewrite list_lookup_fmap, Hi. reflexivity.
Qed.

End Adapter_claims.

(** ** The request handler *)

Section Handler_claims.

Variable py : Runtime.


(** C5, as amended.  [app.py] reads the metadata file once when the
    process starts, and [extract_features_for_model] reads it again on
    every request: the response is fixed by the request, the classifier
    and the metadata file as it is when the request is handled, whatever
    was loaded at startup; with the file gone, a request with a URL is
    answered with status 500. *)
Theorem metadata_read_on_every_request (g : Globals) (fs : JsonFiles)
    (request : Request) :
  (forall models fs0,
      startup models fs0 = Ok g ->
      fs0 !! META_PATH = Some (meta g)
      /\ meta_features (meta g) = Some (MODEL_FEATURES g))
  /\ (forall g' fs',
         model g' = model g ->
         fs' !! META_PATH = fs !! META_PATH ->
         predict py g' fs' request = predict py g fs request)
  /\ (forall url,
         request_url request = Ok url ->
         url <> "" ->
         fs !! META_PATH = None ->
         predict py g fs request
         = {| body := ExceptionBody FileNotFoundError; status := 500 |}).
Proof.
  split; [|split].
  - intros models fs0. unfold startup.
    destruct (models !! MODEL_PATH) as [m|]; [|discriminate].
    cbn [mbind result_bind bind].
    destruct (fs0 !! META_PATH) as [doc|]; [|discriminate].
    cbn [mbind result_bind bind].
    destruct (meta_features doc) as [l|] eqn:Hl; [|discriminate].
    cbn [mbind result_bind bind].
    intros H. apply Ok_inj in H. subst g. cbn [meta MODEL_FEATURES].
    split; [reflexivity | exact Hl].
  - intros g' fs' Hmodel Hfile.
    unfold predict, extract_features_for_model.
    rewrite Hmodel, Hfile. reflexivity.
  - intros url Hurl Hne Hgone.
    apply String.eqb_neq in Hne.
    unfold predict, extract_features_for_model.
    rewrite Hurl. cbn [mbind result_bind bind]. rewrite Hne, Hgone.
    reflexivity.
Qed.

End Handler_claims.

(** ** The adapter and the handler on concrete requests *)

Lemma extractor_length_url (py : Runtime) (arg : pyarg)
    (feats : gmap string value) :
  compute_url_superset_features py arg = Ok feats ->
  feats !! "length_url" = Some (VInt (Str.len (coerce arg))).
Proof. intros H. extractor_steps H parsed Hparse. dict_lookup. Qed.

Lemma extractor_has_no_web_traffic (py : Runtime) (arg : pyarg)
    (feats : gmap string value) :
  compute_url_superset_features py arg = Ok feats ->
  feats !! "web_traffic" = None.
Proof.
  intros H. apply not_elem_of_dom. rewrite (extractor_keys py arg feats H).
  apply (bool_decide_unpack _). vm_compute. exact I.
Qed.


Lemma model_record_witness :
  match extract_features_for_model cpython_3_11
          example_files_low (ArgStr "example.com") META_PATH
  with
  | Ok X =>
      df_columns X = ["length_url"; "web_traffic"]
      /\ cell X 0 = Some (VInt 11)
      /\ cell X 1 = Some (VInt 10)
  | Raise _ => False
  end.
Proof.
  assert (Hok : is_ok (compute_url_superset_features cpython_3_11
                         (ArgStr "example.com")) = true)
    by (vm_compute; reflexivity).
  destruct (compute_url_superset_features cpython_3_11 (ArgStr "example.com"))
    as [sup|] eqn:E; [clear Hok | discriminate Hok].
  destruct (model_record_follows_metadata cpython_3_11
              example_files_low (ArgStr "example.com")
              META_PATH example_meta_low ["length_url"; "web_traffic"]
              {[ "web_traffic" := VInt 10 ]} sup
              eq_refl eq_refl eq_refl E)
    as (X & HX & Hcolumns & _ & Hcell).
  rewrite HX. split; [exact Hcolumns|]. split.
  - rewrite (Hcell 0%nat "length_url" eq_refl).
    rewrite (extractor_length_url _ _ _ E). reflexivity.
  - rewrite (Hcell 1%nat "web_traffic" eq_refl).
    rewrite (extractor_has_no_web_traffic _ _ _ E). reflexivity.
Defined.


(** C5, counterexample.  One process, started with the first metadata
    file, answers the same request with "legitimate" while that file is
    in place, with "phishing" once the file holds other medians, and
    with status 500 once the file is gone. *)
Lemma prediction_follows_metadata_file_at_request_time :
  startup example_models example_files_low = Ok example_globals
  /\ predict cpython_3_11 example_globals example_files_low
             (json_post "example.com")
     = {| body := JsonBody [("url", JString "example.com");
                            ("prediction", JInt 0);
                            ("meaning", JString "legitimate")];
          status := 200 |}
  /\ predict cpython_3_11 example_globals example_files_high
             (json_post "example.com")
     = {| body := JsonBody [("url", JString "example.com");
                            ("prediction", JInt 1);
                            ("meaning", JString "phishing")];
          status := 200 |}
  /\ predict cpython_3_11 example_globals example_no_files (json_post "example.com")
     = {| body := ExceptionBody FileNotFoundError; status := 500 |}.
Proof.
  split; [reflexivity|].
  split; [vm_compute; reflexivity|].
  split; [vm_compute; reflexivity|].
  vm_compute. reflexivity.
Qed.

Lemma metadata_read_witness :
  predict cpython_3_11
          {| model := example_classifier; meta := example_meta_high;
             MODEL_FEATURES := [] |}
          example_files_low (json_post "example.com")
  = predict cpython_3_11 example_globals
            example_files_low (json_post "example.com").
Proof.
  apply (proj1 (proj2 (metadata_read_on_every_request cpython_3_11
                         example_globals example_files_low
                         (json_post "example.com")))).
  - reflexivity.
  - reflexivity.
Defined.

(** The second source of [ValueError]: the superscript two is a digit
    for [str.isdigit] and is refused by [int]. *)
Example extractor_raises_on_superscript_port :
  compute_url_superset_features cpython_3_11
    (ArgStr (String "a" (String ":" (String (ascii_of_N 178) ""))))
  = Raise ValueError.
Proof. vm_compute. reflexivity. Qed.

(** A JSON body whose [url] is not text is answered with status 500:
    [None] has no [strip]. *)
Example json_null_url_is_server_error :
  predict cpython_3_11 example_globals example_files_low
          {| is_json := true; get_json := Ok (JObject [("url", JNull)]);
             form := [] |}
  = {| body := ExceptionBody AttributeError; status := 500 |}.
Proof. vm_compute. reflexivity. Qed.

(** * Further properties of the code *)

(** Read a key of a dictionary written as a chain of assignments,
    leaving the value found in the goal. *)
Ltac dict_read :=
  repeat (rewrite lookup_insert_ne by (intro; discriminate));
  rewrite lookup_insert_eq.

(** ** Strings, continued *)

Lemma len_lower (s : string) : Str.len (Str.lower s) = Str.len s.
Proof. induction s as [|c r IH]; cbn [Str.lower Str.len]; lia. Qed.

Lemma count_from_le_len (sub s : string) (skip : nat) :
  Str.count_from sub s skip <= Str.len s.
Proof.
  revert skip. induction s as [|c r IH]; intros skip; [cbn; lia|].
  cbn [Str.count_from Str.len]. destruct skip as [|k].
  - destruct (Str.startswith sub (String c r)).
    + pose proof (IH (Nat.pred (String.length sub))). lia.
    + pose proof (IH O). lia.
  - pose proof (IH k). lia.
Qed.

Lemma count_le_len (sub s : string) :
  sub <> EmptyString -> Str.count sub s <= Str.len s.
Proof.
  intros Hsub. unfold Str.count. destruct sub; [congruence|].
  apply count_from_le_len.
Qed.

Lemma startswith_contains (p s : string) :
  Str.startswith p s = true -> Str.contains p s = true.
Proof. intros H. destruct s; cbn [Str.contains]; rewrite H; reflexivity. Qed.

Lemma flag_cases (b : bool) : flag b = VInt 0 \/ flag b = VInt 1.
Proof. destruct b; [right | left]; reflexivity. Qed.

(** ** The random-domain test in integers *)

Lemma truediv_below (a b p : Z) (x : Q) :
  0 < b -> 0 < p ->
  py_truediv a b = Ok x ->
  Qltb x (1 # Z.to_pos p) = (p * a <? b).
Proof.
  intros Hb Hp. unfold py_truediv.
  destruct b as [|q|q]; [lia| |lia]. cbn [Z.eqb].
  intros H. apply Ok_inj in H. subst x.
  unfold Qltb, Qle_bool, Qdiv, Qmult, Qinv, inject_Z. cbn [Qnum Qden].
  rewrite Pos.mul_1_l, <- Z.ltb_antisym.
  assert (Hid : Z.pos (Z.to_pos p) = p) by (apply Z2Pos.id; lia).
  destruct (Z.ltb_spec (a * 1 * Z.pos (Z.to_pos p)) (1 * Z.pos q));
    destruct (Z.ltb_spec (p * a) (Z.pos q)); try reflexivity; exfalso; lia.
Qed.

Lemma truediv_above (a b : Z) (x : Q) :
  0 < b ->
  py_truediv a b = Ok x ->
  Qltb (3 # 10) x = (3 * b <? 10 * a).
Proof.
  intros Hb. unfold py_truediv.
  destruct b as [|q|q]; [lia| |lia]. cbn [Z.eqb].
  intros H. apply Ok_inj in H. subst x.
  unfold Qltb, Qle_bool, Qdiv, Qmult, Qinv, inject_Z. cbn [Qnum Qden].
  rewrite Pos.mul_1_l, <- Z.ltb_antisym.
  destruct (Z.ltb_spec (3 * Z.pos q) (a * 1 * 10));
    destruct (Z.ltb_spec (3 * Z.pos q) (10 * a)); try reflexivity;
    exfalso; lia.
Qed.

Lemma random_domain_test_value (host : string) (b : bool) :
  random_domain_test host (vowels_of host) (digits_of host) = Ok b ->
  b = (15 <? Str.len host)
      && ((5 * vowels_of host <? Str.len host)
          || (3 * Str.len host <? 10 * digits_of host)).
Proof.
  unfold random_domain_test. cbn [_safe_len].
  destruct (15 <? Str.len host) eqn:Hlen.
  - apply Z.ltb_lt in Hlen. intros H.
    assert (Hpos : 0 < Str.len host) by lia.
    apply bind_Ok_inv in H as (v & Hv & H).
    pose proof (truediv_below _ _ 5 _ Hpos eq_refl Hv) as Hfifth.
    change (1 # Z.to_pos 5) with (1 # 5) in Hfifth. rewrite Hfifth in H.
    destruct (5 * vowels_of host <? Str.len host).
    + apply Ok_inj in H. subst b. reflexivity.
    + apply bind_Ok_inv in H as (d & Hd & H).
      apply Ok_inj in H. subst b.
      rewrite (truediv_above _ _ _ Hpos Hd). reflexivity.
  - intros H. apply Ok_inj in H. subst b. reflexivity.
Qed.

(** ** The port is a natural number *)

Lemma decimal_digit_value (c : ascii) :
  Char.is_decimal c = true -> 0 <= Z.of_N (Char.code c) - 48 <= 9.
Proof.
  unfold Char.is_decimal, Char.between. intros H.
  apply andb_true_iff in H as [Hlo Hhi].
  apply N.leb_le in Hlo, Hhi. lia.
Qed.

Lemma decimal_value_nonneg (s : string) (acc : Z) :
  Str.all Char.is_decimal s = true -> 0 <= acc -> 0 <= decimal_value acc s.
Proof.
  revert acc. induction s as [|c r IH]; intros acc Hs Hacc; [exact Hacc|].
  cbn [Str.all] in Hs. apply andb_true_iff in Hs as [Hc Hr].
  cbn [decimal_value]. apply IH; [exact Hr|].
  pose proof (decimal_digit_value c Hc). lia.
Qed.

Lemma has_port_nonneg (py : Runtime) (netloc : string) (port : Z) :
  _has_port py netloc = Ok port -> 0 <= port.
Proof.
  unfold _has_port.
  destruct (Str.contains_char ":" netloc);
    [|intros H; apply Ok_inj in H; lia].
  destruct (Str.isdigit _); [|intros H; apply Ok_inj in H; lia].
  unfold py_int.
  destruct (Str.all Char.is_decimal _) eqn:Hdec; [|discriminate].
  cbn [negb]. destruct (_ && _); [discriminate|].
  intros H. apply Ok_inj in H. subst port.
  apply decimal_value_nonneg; [exact Hdec | lia].
Qed.

Section Extractor_ranges.

Variable py : Runtime.

(** X1.  [punycode] is 1 exactly when the host contains "xn--"; the
    separate test for a host that starts with "xn--" adds nothing. *)
Theorem punycode_iff_host_contains_marker (arg : pyarg)
    (feats : gmap string value) (parsed : ParseResult) :
  compute_url_superset_features py arg = Ok feats ->
  urlparse py (with_scheme (coerce arg)) = Ok parsed ->
  feats !! "punycode"
  = Some (VInt (if Str.contains "xn--" (host_of parsed) then 1 else 0)).
Proof.
  intros H Hparse. extractor_steps H parsed' Hparse'.
  assert (parsed' = parsed) as -> by congruence.
  unfold host_of.
  assert (Hor : Str.startswith "xn--" (Str.lower (netloc parsed))
                || Str.contains "xn--" (Str.lower (netloc parsed))
                = Str.contains "xn--" (Str.lower (netloc parsed))).
  { destruct (Str.startswith "xn--" (Str.lower (netloc parsed))) eqn:Hs;
      [|reflexivity].
    rewrite (startswith_contains _ _ Hs). reflexivity. }
  dict_read. unfold flag. rewrite Hor. reflexivity.
Qed.

(** X2.  Each of the ten flag features is 0 or 1, and each of the three
    brand features is 0, whatever the text. *)
Theorem flags_are_zero_or_one (arg : pyarg) (feats : gmap string value) :
  compute_url_superset_features py arg = Ok feats ->
  (forall key, In key flag_keys ->
               feats !! key = Some (VInt 0) \/ feats !! key = Some (VInt 1))
  /\ (forall key, In key brand_keys -> feats !! key = Some (VInt 0)).
Proof.
  intros H. extractor_steps H parsed Hparse. split.
  - intros key Hin. unfold flag_keys in Hin. cbn [In] in Hin.
    repeat (destruct Hin as [<-|Hin];
            [match goal with
             | |- ?m !! ?k = _ \/ _ =>
                 let b := fresh "b" in
                 evar (b : bool);
                 assert (Hk : m !! k = Some (flag b)) by (subst b; dict_lookup);
                 rewrite Hk; subst b;
                 match goal with
                 | |- Some (flag ?c) = _ \/ _ =>
                     destruct (flag_cases c) as [-> | ->]; [left | right];
                     reflexivity
                 end
             end|]).
    contradiction.
  - intros key Hin. unfold brand_keys in Hin. cbn [In] in Hin.
    repeat (destruct Hin as [<-|Hin]; [dict_lookup|]). contradiction.
Qed.

(** X3.  Each occurrence count lies between 0 and the length of the
    text, and [nb_dslash] between -1 and the length of the text less
    one. *)
Theorem counts_bounded_by_length (arg : pyarg) (feats : gmap string value) :
  compute_url_superset_features py arg = Ok feats ->
  feats !! "length_url" = Some (VInt (Str.len (coerce arg)))
  /\ (forall key, In key count_keys ->
        exists n, feats !! key = Some (VInt n)
                  /\ 0 <= n <= Str.len (coerce arg))
  /\ (exists n, feats !! "nb_dslash" = Some (VInt n)
                /\ -1 <= n <= Str.len (coerce arg) - 1).
Proof.
  intros H. extractor_steps H parsed Hparse.
  assert (Hb : forall sub, sub <> EmptyString ->
                 0 <= Str.count sub (coerce arg) <= Str.len (coerce arg)).
  { intros sub Hsub. split; [apply count_nonneg | apply count_le_len, Hsub]. }
  assert (Hl : forall sub, sub <> EmptyString ->
                 0 <= Str.count sub (Str.lower (coerce arg))
                 <= Str.len (coerce arg)).
  { intros sub Hsub. rewrite <- (len_lower (coerce arg)).
    split; [apply count_nonneg | apply count_le_len, Hsub]. }
  split; [dict_lookup|]. split.
  - intros key Hin. unfold count_keys in Hin. cbn [In] in Hin.
    repeat (destruct Hin as [<-|Hin];
            [eexists; split; [dict_lookup|];
             first [apply Hb | apply Hl]; discriminate|]).
    contradiction.
  - eexists. split; [dict_lookup|].
    pose proof (Hb "//" ltac:(discriminate)). lia.
Qed.

(** X5.  [random_domain] is 1 exactly when the host has more than 15
    characters and either fewer than a fifth of them are vowels or more
    than three tenths of them are digits; a host of at most 15
    characters is never flagged. *)
Theorem random_domain_in_integers (arg : pyarg) (feats : gmap string value)
    (parsed : ParseResult) :
  compute_url_superset_features py arg = Ok feats ->
  urlparse py (with_scheme (coerce arg)) = Ok parsed ->
  let host := host_of parsed in
  feats !! "random_domain"
  = Some (VInt (if (15 <? Str.len host)
                   && ((5 * vowels_of host <? Str.len host)
                       || (3 * Str.len host <? 10 * digits_of host))
                then 1 else 0))
  /\ (Str.len host <= 15 -> feats !! "random_domain" = Some (VInt 0)).
Proof.
  intros H Hparse host. extractor_steps H parsed' Hparse'.
  assert (parsed' = parsed) as -> by congruence.
  apply random_domain_test_value in Hrd. fold (host_of parsed) in Hrd.
  fold host in Hrd.
  assert (Hval : forall m : gmap string value,
             <["random_domain" := flag rd]> m !! "random_domain"
             = Some (VInt (if rd then 1 else 0))).
  { intros m. rewrite lookup_insert_eq. reflexivity. }
  split.
  - rewrite <- Hrd.
    repeat (rewrite lookup_insert_ne by (intro; discriminate)).
    apply Hval.
  - intros Hshort.
    assert (rd = false) as Hfalse.
    { rewrite Hrd. apply Z.ltb_ge in Hshort. rewrite Hshort. reflexivity. }
    repeat (rewrite lookup_insert_ne by (intro; discriminate)).
    rewrite Hval, Hfalse. reflexivity.
Qed.

End Extractor_ranges.

(** ** The network location is a piece of the text *)

Lemma count_single (c : ascii) (s : string) :
  Str.count (String c EmptyString) s = Str.count_if (Char.eqb c) s.
Proof.
  unfold Str.count.
  induction s as [|d r IH]; [reflexivity|].
  cbn [Str.count_from Str.startswith Str.count_if String.length Nat.pred].
  rewrite IH. destruct (Char.eqb c d); reflexivity.
Qed.

Lemma len_as_count (s : string) : Str.len s = Str.count_if (fun _ => true) s.
Proof. induction s as [|c r IH]; cbn [Str.len Str.count_if]; lia. Qed.

Lemma len_of_length (s : string) : Str.len s = Z.of_nat (String.length s).
Proof.
  induction s as [|c r IH]; [reflexivity|].
  cbn [Str.len String.length]. lia.
Qed.

Lemma count_if_nonneg (p : ascii -> bool) (s : string) :
  0 <= Str.count_if p s.
Proof. apply count_if_bounds. Qed.

Lemma count_if_take (p : ascii -> bool) (n : nat) (s : string) :
  Str.count_if p (Str.take n s) <= Str.count_if p s.
Proof.
  revert n. induction s as [|c r IH]; intros [|n]; cbn [Str.take Str.count_if];
    try lia.
  - pose proof (count_if_nonneg p r). destruct (p c); lia.
  - pose proof (IH n). lia.
Qed.

Lemma count_if_filter (p q : ascii -> bool) (s : string) :
  Str.count_if p (Str.filter q s) <= Str.count_if p s.
Proof.
  induction s as [|c r IH]; cbn [Str.filter Str.count_if]; [lia|].
  destruct (q c); cbn [Str.count_if]; destruct (p c); lia.
Qed.

Lemma count_if_app (p : ascii -> bool) (a b : string) :
  Str.count_if p (a ++ b) = Str.count_if p a + Str.count_if p b.
Proof.
  induction a as [|c r IH]; [reflexivity|].
  change (String c r ++ b)%string with (String c (r ++ b)).
  cbn [Str.count_if]. rewrite IH. lia.
Qed.

Lemma count_if_lower (c : ascii) (s : string) :
  (forall d, Char.eqb c (Char.lower d) = Char.eqb c d) ->
  Str.count_if (Char.eqb c) (Str.lower s) = Str.count_if (Char.eqb c) s.
Proof.
  intros Hc. induction s as [|d r IH]; [reflexivity|].
  cbn [Str.lower Str.count_if]. rewrite Hc, IH. reflexivity.
Qed.

Lemma lower_keeps_dot (d : ascii) :
  Char.eqb "." (Char.lower d) = Char.eqb "." d.
Proof. destruct d as [[] [] [] [] [] [] [] []]; reflexivity. Qed.


Lemma all_take (p : ascii -> bool) (n : nat) (s : string) :
  Str.all p s = true -> Str.all p (Str.take n s) = true.
Proof.
  revert n. induction s as [|c r IH]; intros [|n] H; try reflexivity.
  cbn [Str.all Str.take] in *. apply andb_true_iff in H as [Hc Hr].
  rewrite Hc, (IH n Hr). reflexivity.
Qed.

Lemma all_filter (p q : ascii -> bool) (s : string) :
  Str.all p s = true -> Str.all p (Str.filter q s) = true.
Proof.
  induction s as [|c r IH]; intros H; [reflexivity|].
  cbn [Str.all Str.filter] in *. apply andb_true_iff in H as [Hc Hr].
  destruct (q c); cbn [Str.all]; rewrite ?Hc, (IH Hr); reflexivity.
Qed.

Lemma all_app_r (p : ascii -> bool) (a b : string) :
  Str.all p (a ++ b) = true -> Str.all p b = true.
Proof.
  induction a as [|c r IH]; intros H; [exact H|].
  change (String c r ++ b)%string with (String c (r ++ b)) in H.
  cbn [Str.all] in H. apply andb_true_iff in H as [_ Hr]. exact (IH Hr).
Qed.

Lemma all_lower (p : ascii -> bool) (s : string) :
  (forall d, p (Char.lower d) = p d) ->
  Str.all p (Str.lower s) = Str.all p s.
Proof.
  intros Hp. induction s as [|c r IH]; [reflexivity|].
  cbn [Str.all Str.lower]. rewrite Hp, IH. reflexivity.
Qed.

Lemma all_both (p q r : ascii -> bool) (s : string) :
  (forall c, p c = true -> q c = true -> r c = true) ->
  Str.all p s = true -> Str.all q s = true -> Str.all r s = true.
Proof.
  intros Hpq. induction s as [|c t IH]; intros Hp Hq; [reflexivity|].
  cbn [Str.all] in *.
  apply andb_true_iff in Hp as [Hpc Hpt]. apply andb_true_iff in Hq as [Hqc Hqt].
  rewrite (Hpq c Hpc Hqc), (IH Hpt Hqt). reflexivity.
Qed.

Lemma startswith_app (p s : string) :
  Str.startswith p s = true -> exists r, s = (p ++ r)%string.
Proof.
  revert s. induction p as [|a p IH]; intros s H.
  - exists s. reflexivity.
  - destruct s as [|b s]; [discriminate H|].
    cbn [Str.startswith] in H. apply andb_true_iff in H as [Hab Hs].
    apply Ascii.eqb_eq in Hab. subst b.
    destruct (IH s Hs) as [r ->]. exists r. reflexivity.
Qed.

(** The text handed to [urlparse] starts with a scheme that [urlsplit]
    recognises, and what follows "://" is the end of the text given. *)
Lemma with_scheme_cases (url : string) :
  exists sch pre r,
    (sch = "http" \/ sch = "https")
    /\ with_scheme url = (sch ++ "://" ++ r)%string
    /\ url = (pre ++ r)%string.
Proof.
  unfold with_scheme.
  destruct (Str.startswith "http://" url) eqn:Hhttp.
  - destruct (startswith_app _ _ Hhttp) as [r ->].
    exists "http", "http://", r. cbn [orb]. auto.
  - destruct (Str.startswith "https://" url) eqn:Hhttps.
    + destruct (startswith_app _ _ Hhttps) as [r ->].
      exists "https", "https://", r. cbn [orb]. auto.
    + exists "http", "", url. cbn [orb]. auto.
Qed.

Section Netloc.

Variable py : Runtime.

Lemma urlsplit_after_scheme (sch r : string) :
  sch = "http" \/ sch = "https" ->
  urlsplit py (sch ++ "://" ++ r)
  = ('(netloc, url) ←
       (let '(netloc, rest) :=
          _splitnetloc ("//" ++ Str.filter kept_by_urlsplit r) 2 in
        let has_open := Str.contains_char "[" netloc in
        let has_close := Str.contains_char "]" netloc in
        if (has_open && negb has_close) || (has_close && negb has_open)
        then Raise ValueError
        else if has_open && has_close && negb (check_bracketed_netloc py netloc)
        then Raise ValueError
        else Ok (netloc, rest));
     let '(url, fragment) := split_once "#" url in
     let '(url, query) := split_once "?" url in
     Ok {| sr_scheme := sch; sr_netloc := netloc; sr_path := url;
           sr_query := query; sr_fragment := fragment |}).
Proof. intros [-> | ->]; reflexivity. Qed.

Lemma splitnetloc_take (rest : string) :
  exists n, fst (_splitnetloc ("//" ++ rest) 2) = Str.take n rest.
Proof.
  unfold _splitnetloc. cbn [fst]. unfold slice. eexists. reflexivity.
Qed.

Lemma urlparse_netloc (url : string) (sr : SplitResult) (parsed : ParseResult) :
  urlsplit py url = Ok sr -> urlparse py url = Ok parsed ->
  netloc parsed = sr_netloc sr.
Proof.
  intros Hsplit. unfold urlparse. rewrite Hsplit.
  cbn [mbind result_bind bind].
  destruct (_ && _); [destruct (_splitparams _)|];
    intros H; apply Ok_inj in H; subst parsed; reflexivity.
Qed.

(** The network location that [urlparse] finds is a beginning of what
    [urlsplit] keeps of the text after the scheme. *)
Lemma parsed_netloc_shape (url : string) (parsed : ParseResult) :
  urlparse py (with_scheme url) = Ok parsed ->
  exists pre r n,
    url = (pre ++ r)%string
    /\ netloc parsed = Str.take n (Str.filter kept_by_urlsplit r).
Proof.
  intros Hparse.
  destruct (with_scheme_cases url) as (sch & pre & r & Hsch & Hwith & Hurl).
  rewrite Hwith in Hparse.
  destruct (urlsplit py (sch ++ "://" ++ r)) as [sr|e] eqn:Hsplit.
  - rewrite (urlparse_netloc _ _ _ Hsplit Hparse).
    rewrite (urlsplit_after_scheme sch r Hsch) in Hsplit.
    apply bind_Ok_inv in Hsplit as ([nl rest] & Hblock & Htail).
    destruct (splitnetloc_take (Str.filter kept_by_urlsplit r)) as [n Hn].
    destruct (_splitnetloc _ 2) as [nl' rest'] eqn:Hsn. cbn [fst] in Hn.
    assert (nl = nl') as ->.
    { revert Hblock. cbv zeta.
      destruct (_ || _); [discriminate|].
      destruct (_ && _); [discriminate|].
      intros Hblock. apply Ok_inj in Hblock. congruence. }
    destruct (split_once "#" rest) as [u fragment].
    destruct (split_once "?" u) as [u' query].
    apply Ok_inj in Htail. subst sr. cbn [sr_netloc].
    exists pre, r, n. split; [exact Hurl | exact Hn].
  - unfold urlparse in Hparse. rewrite Hsplit in Hparse. discriminate.
Qed.

(** A text without brackets is parsed. *)
Lemma urlparse_accepts_without_brackets (url : string) :
  Str.contains_char "[" url = false ->
  Str.contains_char "]" url = false ->
  exists parsed, urlparse py (with_scheme url) = Ok parsed.
Proof.
  intros Hopen Hclose.
  destruct (with_scheme_cases url) as (sch & pre & r & Hsch & Hwith & Hurl).
  rewrite Hwith.
  assert (Hsplit : exists sr, urlsplit py (sch ++ "://" ++ r) = Ok sr).
  { rewrite (urlsplit_after_scheme sch r Hsch).
    destruct (splitnetloc_take (Str.filter kept_by_urlsplit r)) as [n Hn].
    destruct (_splitnetloc _ 2) as [nl rest] eqn:Hsn. cbn [fst] in Hn.
    assert (Hno : forall c, Str.contains_char c url = false ->
                            Str.contains_char c nl = false).
    { intros c Hc. unfold Str.contains_char in *.
      apply negb_false_iff in Hc. apply negb_false_iff.
      rewrite Hn. apply all_take, all_filter.
      rewrite Hurl in Hc. exact (all_app_r _ _ _ Hc). }
    rewrite (Hno _ Hopen), (Hno _ Hclose).
    cbn [andb orb negb mbind result_bind bind].
    destruct (split_once "#" rest) as [u fragment].
    destruct (split_once "?" u) as [u' query]. eauto. }
  destruct Hsplit as [sr Hsplit]. unfold urlparse. rewrite Hsplit.
  cbn [mbind result_bind bind].
  destruct (_ && _); [destruct (_splitparams _)|]; eauto.
Qed.

(** The host is no longer than the text, and has no more of a
    character that lower case leaves alone than the text has. *)
Lemma host_within_text (url : string) (parsed : ParseResult) :
  urlparse py (with_scheme url) = Ok parsed ->
  Str.len (host_of parsed) <= Str.len url
  /\ (String.length (host_of parsed) <= String.length url)%nat
  /\ (forall c, (forall d, Char.eqb c (Char.lower d) = Char.eqb c d) ->
                Str.count (String c EmptyString) (host_of parsed)
                <= Str.count (String c EmptyString) url)
  /\ (forall p, (forall d, p (Char.lower d) = p d) ->
                Str.all p url = true -> Str.all p (host_of parsed) = true).
Proof.
  intros Hparse.
  destruct (parsed_netloc_shape url parsed Hparse)
    as (pre & r & n & Hurl & Hnet).
  unfold host_of. rewrite Hnet.
  assert (Hcount : forall p,
             Str.count_if p (Str.take n (Str.filter kept_by_urlsplit r))
             <= Str.count_if p url).
  { intros p. rewrite Hurl, count_if_app.
    pose proof (count_if_take p n (Str.filter kept_by_urlsplit r)).
    pose proof (count_if_filter p kept_by_urlsplit r).
    pose proof (count_if_nonneg p pre). lia. }
  assert (Hlen : Str.len (Str.lower (Str.take n (Str.filter kept_by_urlsplit r)))
                 <= Str.len url).
  { rewrite len_lower, !len_as_count. apply Hcount. }
  split; [exact Hlen|]. split; [|split].
  - rewrite !len_of_length in Hlen. lia.
  - intros c Hc. rewrite !count_single, (count_if_lower c _ Hc).
    apply Hcount.
  - intros p Hp Hall. rewrite (all_lower p _ Hp).
    apply all_take, all_filter.
    rewrite Hurl in Hall. exact (all_app_r _ _ _ Hall).
Qed.

End Netloc.

(** ** The last segment of a host *)

Lemma final_of_parts (p : string -> Prop) (parts : list string) :
  p EmptyString -> Forall p parts -> p (Str.final parts).
Proof.
  intros Hempty Hall. unfold Str.final.
  induction Hall as [|q qs Hq Hqs IH]; [exact Hempty|].
  destruct qs; [exact Hq | exact IH].
Qed.

(** The text after the last colon is made of characters of the host and
    is no longer than the host. *)
Lemma final_segment_within (p : ascii -> bool) (c : ascii) (s : string) :
  (Str.all p s = true -> Str.all p (Str.final (Str.split c s)) = true)
  /\ (String.length (Str.final (Str.split c s)) <= String.length s)%nat.
Proof.
  split.
  - intros Hall.
    apply (final_of_parts (fun t => Str.all p t = true)); [reflexivity|].
    induction s as [|d r IH]; cbn [Str.split]; [repeat constructor|].
    cbn [Str.all] in Hall. apply andb_true_iff in Hall as [Hd Hr].
    specialize (IH Hr).
    destruct (Char.eqb c d); [constructor; [reflexivity | exact IH]|].
    destruct (Str.split c r) as [|q qs]; [repeat constructor; cbn; rewrite Hd; reflexivity|].
    inversion IH; subst. constructor; [|assumption].
    cbn [Str.all]. rewrite Hd. assumption.
  - induction s as [|d r IH]; cbn [Str.split]; [cbn; lia|].
    destruct (Char.eqb c d).
    + unfold Str.final in *. cbn [String.length].
      destruct (Str.split c r) as [|q qs] eqn:Hs.
      * cbn. lia.
      * cbn [List.last] in *. lia.
    + destruct (Str.split c r) as [|q qs] eqn:Hs.
      * cbn. lia.
      * unfold Str.final in *. cbn [String.length].
        destruct qs as [|q' qs']; cbn [List.last String.length] in *; lia.
Qed.

Lemma lower_keeps_ascii (d : ascii) :
  ascii_char (Char.lower d) = ascii_char d.
Proof. destruct d as [[] [] [] [] [] [] [] []]; reflexivity. Qed.

Lemma ascii_digit_is_decimal (d : ascii) :
  ascii_char d = true -> Char.isdigit d = true -> Char.is_decimal d = true.
Proof.
  destruct d as [[] [] [] [] [] [] [] []]; intros H1 H2;
    try reflexivity; try discriminate H1; discriminate H2.
Qed.

Lemma isdigit_all (s : string) :
  Str.isdigit s = true -> Str.all Char.isdigit s = true.
Proof. destruct s; [discriminate | intros H; exact H]. Qed.

(** The port conversion succeeds on a host of ASCII characters that is
    within the limit of digits. *)
Lemma has_port_accepts_ascii (py : Runtime) (host : string) :
  Str.all ascii_char host = true ->
  (int_max_str_digits py = 0 \/ String.length host <= int_max_str_digits py)%nat ->
  exists port, _has_port py host = Ok port.
Proof.
  intros Hascii Hlimit. unfold _has_port.
  destruct (Str.contains_char ":" host); [|eauto].
  destruct (final_segment_within ascii_char ":" host) as [Hseg Hlen].
  specialize (Hseg Hascii).
  destruct (Str.isdigit (Str.final (Str.split ":" host))) eqn:Hdigit; [|eauto].
  unfold py_int.
  rewrite (all_both ascii_char Char.isdigit Char.is_decimal _
             ascii_digit_is_decimal Hseg (isdigit_all _ Hdigit)).
  cbn [negb].
  assert (Hok : (0 <? int_max_str_digits py)%nat
                && (int_max_str_digits py
                    <? String.length (Str.final (Str.split ":" host)))%nat
                = false).
  { destruct Hlimit as [-> | Hle]; [reflexivity|].
    apply andb_false_iff. right. apply Nat.ltb_ge. lia. }
  rewrite Hok. eauto.
Qed.

Lemma colon_of_port (py : Runtime) (host : string) (port : Z) :
  _has_port py host = Ok port -> port <> 0 ->
  Str.contains_char ":" host = true.
Proof.
  unfold _has_port. destruct (Str.contains_char ":" host); [reflexivity|].
  intros H Hne. apply Ok_inj in H. congruence.
Qed.

Lemma contains_char_count (c : ascii) (s : string) :
  Str.contains_char c s = true -> 1 <= Str.count (String c EmptyString) s.
Proof.
  rewrite count_single. unfold Str.contains_char.
  induction s as [|d r IH]; [discriminate|].
  cbn [Str.all Str.count_if]. pose proof (count_if_nonneg (Char.eqb c) r).
  destruct (Char.eqb c d); [lia|].
  cbn [negb andb]. intros Hrest. specialize (IH Hrest). lia.
Qed.


Section Host_claims.

Variable py : Runtime.


(** X6.  [port] is never negative, and it is other than 0 only when the
    text has a colon. *)
Theorem port_is_natural_and_needs_colon (arg : pyarg)
    (feats : gmap string value) :
  compute_url_superset_features py arg = Ok feats ->
  exists port nb_colon,
    feats !! "port" = Some (VInt port)
    /\ feats !! "nb_colon" = Some (VInt nb_colon)
    /\ 0 <= port
    /\ (port <> 0 -> 1 <= nb_colon).
Proof.
  intros H. extractor_steps H parsed Hparse.
  destruct (host_within_text py (coerce arg) parsed Hparse)
    as (_ & _ & Hcount & _).
  unfold host_of in Hcount.
  pose proof (Hcount ":"%char lower_keeps_colon) as Hcolons.
  do 2 eexists.
  split; [dict_lookup|]. split; [dict_lookup|].
  split; [exact (has_port_nonneg _ _ _ Hport)|].
  intros Hne.
  pose proof (contains_char_count _ _ (colon_of_port _ _ _ Hport Hne)). lia.
Qed.

(** X7.  A text of ASCII characters without square brackets, no longer
    than the limit of digits that [int] converts (or with no such
    limit), is accepted: the extractor returns its mapping. *)
Theorem extractor_accepts_plain_ascii (url : string) :
  Str.all ascii_char url = true ->
  Str.contains_char "[" url = false ->
  Str.contains_char "]" url = false ->
  (int_max_str_digits py = 0 \/ String.length url <= int_max_str_digits py)%nat ->
  exists feats,
    compute_url_superset_features py (ArgStr url) = Ok feats
    /\ dom feats = list_to_set FEATURE_KEYS.
Proof.
  intros Hascii Hopen Hclose Hlimit.
  destruct (urlparse_accepts_without_brackets py url Hopen Hclose)
    as [parsed Hparse].
  destruct (host_within_text py url parsed Hparse) as (_ & Hlen & _ & Hall).
  destruct (has_port_accepts_ascii py (host_of parsed)) as [port Hport].
  - exact (Hall ascii_char lower_keeps_ascii Hascii).
  - destruct Hlimit as [H0 | Hle]; [left; exact H0 | right; lia].
  - destruct (extractor_runs py (ArgStr url) parsed port Hparse Hport)
      as [feats Hfeats].
    exists feats. split; [exact Hfeats|].
    exact (extractor_keys py _ _ Hfeats).
Qed.

End Host_claims.

(** ** The model adapter, continued *)

Section Adapter_more.

Variable py : Runtime.

(** The rows of the table that the adapter builds. *)
Lemma assembled_rows (sup medians : gmap string value)
    (model_features : list string) :
  List.map
    (fun c =>
       fold_left
         (fun (row : gmap string value) feat =>
            match sup !! feat with
            | Some v => <[feat := v]> row
            | None => <[feat := default (VFloat 0) (medians !! feat)]> row
            end)
         model_features ∅ !! c)
    model_features
  = List.map (fun feat => Some (expected_cell sup medians feat))
             model_features.
Proof.
  apply map_ext_in. intros feat Hin.
  rewrite assembled_row_lookup.
  apply decide_True. apply list_elem_of_In. exact Hin.
Qed.

(** What the adapter returns once the file is read and the extractor
    has returned. *)
Lemma adapter_table (fs : JsonFiles) (arg : pyarg) (meta_path : string)
    (doc : Meta) (sup : gmap string value) :
  fs !! meta_path = Some doc ->
  compute_url_superset_features py arg = Ok sup ->
  extract_features_for_model py fs arg meta_path
  = Ok {| df_columns := default [] (meta_features doc);
          df_rows :=
            [List.map
               (fun feat =>
                  Some (expected_cell sup (default ∅ (meta_medians doc)) feat))
               (default [] (meta_features doc))] |}.
Proof.
  intros Hfile Hsup. unfold extract_features_for_model.
  rewrite Hfile. cbn [mbind result_bind bind]. cbv beta zeta.
  rewrite Hsup. cbn [mbind result_bind bind].
  unfold pd_DataFrame. cbn [List.map].
  rewrite assembled_rows. reflexivity.
Qed.



(** X10.  The median recorded for a feature that the extractor computes
    is never used: two metadata documents with the same feature list,
    whose medians agree outside the keys of the extractor, give the
    same result for every URL. *)
Theorem medians_of_extracted_features_unused (fs fs' : JsonFiles)
    (arg : pyarg) (meta_path : string) (doc doc' : Meta) :
  fs !! meta_path = Some doc ->
  fs' !! meta_path = Some doc' ->
  meta_features doc = meta_features doc' ->
  (forall feat,
      ~ In feat FEATURE_KEYS ->
      default ∅ (meta_medians doc) !! feat
      = default ∅ (meta_medians doc') !! feat) ->
  extract_features_for_model py fs arg meta_path
  = extract_features_for_model py fs' arg meta_path.
Proof.
  intros Hfile Hfile' Hfeatures Hmedians.
  destruct (compute_url_superset_features py arg) as [sup|e] eqn:Hsup.
  - rewrite (adapter_table fs arg meta_path doc sup Hfile Hsup).
    rewrite (adapter_table fs' arg meta_path doc' sup Hfile' Hsup).
    rewrite <- Hfeatures. do 2 f_equal. f_equal.
    apply map_ext_in. intros feat _. f_equal.
    unfold expected_cell. destruct (sup !! feat) eqn:Hfeat; [reflexivity|].
    rewrite Hmedians; [reflexivity|].
    intros Hin. apply not_elem_of_dom in Hfeat.
    rewrite (extractor_keys py arg sup Hsup) in Hfeat.
    apply Hfeat. apply elem_of_list_to_set, list_elem_of_In. exact Hin.
  - unfold extract_features_for_model. rewrite Hfile, Hfile'.
    cbn [mbind result_bind bind]. cbv beta zeta. rewrite Hsup. reflexivity.
Qed.

End Adapter_more.

(** ** Trimming *)

Lemma lstrip_head (p : ascii -> bool) (s : string) :
  match Str.lstrip p s with
  | EmptyString => True
  | String c _ => p c = false
  end.
Proof.
  induction s as [|c r IH]; cbn [Str.lstrip]; [exact I|].
  destruct (p c) eqn:Hc; [exact IH | exact Hc].
Qed.

Lemma lstrip_fixed (p : ascii -> bool) (s : string) :
  match s with
  | EmptyString => True
  | String c _ => p c = false
  end ->
  Str.lstrip p s = s.
Proof. destruct s as [|c r]; [reflexivity|]. cbn [Str.lstrip]. intros ->. reflexivity. Qed.

Lemma rstrip_head (p : ascii -> bool) (c : ascii) (r : string) :
  p c = false -> exists r', Str.rstrip p (String c r) = String c r'.
Proof.
  intros Hc. cbn [Str.rstrip]. rewrite Hc.
  destruct (Str.rstrip p r); eauto.
Qed.

Lemma rstrip_cons (p : ascii -> bool) (c : ascii) (r : string) :
  Str.rstrip p (String c r)
  = match Str.rstrip p r with
    | EmptyString => if p c then EmptyString else String c EmptyString
    | String a b => String c (String a b)
    end.
Proof. reflexivity. Qed.

Lemma rstrip_idempotent (p : ascii -> bool) (s : string) :
  Str.rstrip p (Str.rstrip p s) = Str.rstrip p s.
Proof.
  induction s as [|c r IH]; [reflexivity|].
  rewrite rstrip_cons.
  destruct (Str.rstrip p r) as [|d t] eqn:Hr.
  - destruct (p c) eqn:Hc; [reflexivity|].
    rewrite rstrip_cons. cbn [Str.rstrip]. rewrite Hc. reflexivity.
  - rewrite rstrip_cons, IH. reflexivity.
Qed.

(** Trimming a trimmed text changes nothing. *)
Lemma strip_idempotent (s : string) : Str.strip (Str.strip s) = Str.strip s.
Proof.
  unfold Str.strip.
  pose proof (lstrip_head Char.isspace s) as Hhead.
  destruct (Str.lstrip Char.isspace s) as [|c r].
  - reflexivity.
  - destruct (rstrip_head Char.isspace c r Hhead) as [r' Hr'].
    rewrite (lstrip_fixed Char.isspace (Str.rstrip Char.isspace (String c r)))
      by (rewrite Hr'; exact Hhead).
    apply rstrip_idempotent.
Qed.

Lemma strip_head (s : string) :
  match Str.strip s with
  | EmptyString => True
  | String c _ => Char.isspace c = false
  end.
Proof.
  unfold Str.strip.
  pose proof (lstrip_head Char.isspace s) as Hhead.
  destruct (Str.lstrip Char.isspace s) as [|c r]; [exact I|].
  destruct (rstrip_head Char.isspace c r Hhead) as [r' ->]. exact Hhead.
Qed.

(** ** The request handler, continued *)

Section Handler_more.

Variable py : Runtime.

(** X11.  The handler turns every exception into a response with
    status 500 that carries the exception: one from reading the request,
    from the adapter, from the classifier, or from its probabilities.
    Its status is always 200, 400 or 500. *)
Theorem predict_reports_exceptions (g : Globals) (fs : JsonFiles)
    (request : Request) :
  (forall e,
      request_url request = Raise e ->
      predict py g fs request = {| body := ExceptionBody e; status := 500 |})
  /\ (forall url,
         request_url request = Ok url -> url <> "" ->
         (forall e,
             extract_features_for_model py fs (ArgStr url) META_PATH = Raise e ->
             predict py g fs request
             = {| body := ExceptionBody e; status := 500 |})
         /\ (forall X e,
                extract_features_for_model py fs (ArgStr url) META_PATH = Ok X ->
                clf_predict (model g) X = Raise e ->
                predict py g fs request
                = {| body := ExceptionBody e; status := 500 |})
         /\ (forall X label f e,
                extract_features_for_model py fs (ArgStr url) META_PATH = Ok X ->
                clf_predict (model g) X = Ok label ->
                clf_predict_proba (model g) = Some f ->
                f X = Raise e ->
                predict py g fs request
                = {| body := ExceptionBody e; status := 500 |}))
  /\ (status (predict py g fs request) = 200
      \/ status (predict py g fs request) = 400
      \/ status (predict py g fs request) = 500).
Proof.
  split; [|split].
  - intros e Hurl. unfold predict. rewrite Hurl. reflexivity.
  - intros url Hurl Hne. apply String.eqb_neq in Hne.
    split; [|split].
    + intros e HX. unfold predict. rewrite Hurl.
      cbn [mbind result_bind bind]. rewrite Hne, HX. reflexivity.
    + intros X e HX Hlabel. unfold predict. rewrite Hurl.
      cbn [mbind result_bind bind]. rewrite Hne, HX.
      cbn [mbind result_bind bind]. rewrite Hlabel. reflexivity.
    + intros X label f e HX Hlabel Hf Hproba. unfold predict. rewrite Hurl.
      cbn [mbind result_bind bind]. rewrite Hne, HX.
      cbn [mbind result_bind bind]. rewrite Hlabel.
      cbn [mbind result_bind bind]. rewrite Hf, Hproba. reflexivity.
  - unfold predict.
    destruct (request_url request) as [url|e]; [|auto].
    cbn [mbind result_bind bind].
    destruct (String.eqb url ""); [auto|].
    destruct (extract_features_for_model py fs (ArgStr url) META_PATH)
      as [X|e]; [|auto].
    cbn [mbind result_bind bind].
    destruct (clf_predict (model g) X) as [label|e]; [|auto].
    cbn [mbind result_bind bind].
    destruct (clf_predict_proba (model g)) as [f|].
    + destruct (f X) as [p|e]; [|auto].
      cbn [mbind result_bind bind].
      destruct (is_json request); auto.
    + cbn [mbind result_bind bind].
      destruct (is_json request); auto.
Qed.

(** X12.  On success the response carries the trimmed URL, the label
    and its meaning, and a [probabilities] field exactly when the
    classifier has probabilities; a JSON request is answered with JSON
    and a form post with the page, both with the same fields. *)
Theorem predict_success_fields (g : Globals) (fs : JsonFiles)
    (request : Request) (url : string) (X : DataFrame) (label : Z) :
  request_url request = Ok url ->
  url <> "" ->
  extract_features_for_model py fs (ArgStr url) META_PATH = Ok X ->
  clf_predict (model g) X = Ok label ->
  let base :=
    [("url", JString url); ("prediction", JInt label);
     ("meaning", JString (if label =? 1 then "phishing" else "legitimate"))] in
  let answer (fields : list (string * json)) :=
    {| body := if is_json request then JsonBody fields else HtmlBody fields;
       status := 200 |} in
  (clf_predict_proba (model g) = None ->
   predict py g fs request = answer base
   /\ member "probabilities" (response_fields (predict py g fs request)) = None)
  /\ (forall f p,
         clf_predict_proba (model g) = Some f -> f X = Ok p ->
         predict py g fs request
         = answer (List.app base [("probabilities", JArray (List.map JFloat p))])
         /\ member "probabilities" (response_fields (predict py g fs request))
            = Some (JArray (List.map JFloat p))).
Proof.
  intros Hurl Hne HX Hlabel base answer.
  apply String.eqb_neq in Hne.
  assert (Hnone : clf_predict_proba (model g) = None ->
                  predict py g fs request = answer base).
  { intros Hf. unfold predict. rewrite Hurl.
    cbn [mbind result_bind bind]. rewrite Hne, HX.
    cbn [mbind result_bind bind]. rewrite Hlabel.
    cbn [mbind result_bind bind]. rewrite Hf.
    cbn [mbind result_bind bind]. unfold answer, base.
    destruct (is_json request); reflexivity. }
  assert (Hsome : forall f p,
             clf_predict_proba (model g) = Some f -> f X = Ok p ->
             predict py g fs request
             = answer (List.app base
                         [("probabilities", JArray (List.map JFloat p))])).
  { intros f p Hf Hp. unfold predict. rewrite Hurl.
    cbn [mbind result_bind bind]. rewrite Hne, HX.
    cbn [mbind result_bind bind]. rewrite Hlabel.
    cbn [mbind result_bind bind]. rewrite Hf, Hp.
    cbn [mbind result_bind bind]. unfold answer, base.
    destruct (is_json request); reflexivity. }
  split.
  - intros Hf. split; [exact (Hnone Hf)|].
    rewrite (Hnone Hf). unfold answer, response_fields. cbn [body].
    destruct (is_json request); reflexivity.
  - intros f p Hf Hp. split; [exact (Hsome f p Hf Hp)|].
    rewrite (Hsome f p Hf Hp). unfold answer, response_fields. cbn [body].
    destruct (is_json request); reflexivity.
Qed.

(** X13.  The URL that the handler works with is trimmed: trimming it
    again changes nothing, and it does not start with white space. *)
Theorem request_url_is_trimmed (request : Request) (url : string) :
  request_url request = Ok url ->
  Str.strip url = url
  /\ match url with
     | EmptyString => True
     | String c _ => Char.isspace c = false
     end.
Proof.
  unfold request_url.
  assert (Hstrip : forall s, Str.strip s = url ->
            Str.strip url = url
            /\ match url with
               | EmptyString => True
               | String c _ => Char.isspace c = false
               end).
  { intros s <-. split; [apply strip_idempotent | apply strip_head]. }
  destruct (is_json request).
  - intros H. apply bind_Ok_inv in H as (data & _ & H).
    unfold json_url in H.
    destruct data as [| | | | |l|members]; try discriminate H.
    destruct (default (JString "") (member "url" members)) as [| | | |s| |];
      try discriminate H.
    apply Ok_inj in H. exact (Hstrip s H).
  - intros H. apply Ok_inj in H. exact (Hstrip _ H).
Qed.

(** X14.  The process starts exactly when the classifier artifact is
    there, the metadata file is read and the document has [features];
    a document without [features] stops startup with [KeyError], though
    the adapter would read the same document as one without columns. *)
Theorem startup_needs_features (models : ModelFiles) (fs : JsonFiles) :
  (forall g,
      startup models fs = Ok g <->
      exists m doc l,
        models !! MODEL_PATH = Some m
        /\ fs !! META_PATH = Some doc
        /\ meta_features doc = Some l
        /\ g = {| model := m; meta := doc; MODEL_FEATURES := l |})
  /\ (forall m doc,
         models !! MODEL_PATH = Some m ->
         fs !! META_PATH = Some doc ->
         meta_features doc = None ->
         startup models fs = Raise KeyError
         /\ forall arg sup,
              compute_url_superset_features py arg = Ok sup ->
              extract_features_for_model py fs arg META_PATH
              = Ok {| df_columns := []; df_rows := [[]] |}).
Proof.
  split.
  - intros g. unfold startup. split.
    + destruct (models !! MODEL_PATH) as [m|]; [|discriminate].
      cbn [mbind result_bind bind].
      destruct (fs !! META_PATH) as [doc|]; [|discriminate].
      cbn [mbind result_bind bind].
      destruct (meta_features doc) as [l|] eqn:Hl; [|discriminate].
      cbn [mbind result_bind bind].
      intros H. apply Ok_inj in H. subst g. eauto 10.
    + intros (m & doc & l & -> & -> & Hl & ->).
      cbn [mbind result_bind bind]. rewrite Hl. reflexivity.
  - intros m doc Hm Hdoc Hnone. split.
    + unfold startup. rewrite Hm, Hdoc.
      cbn [mbind result_bind bind]. rewrite Hnone. reflexivity.
    + intros arg sup Hsup.
      rewrite (adapter_table py fs arg META_PATH doc sup Hdoc Hsup).
      rewrite Hnone. reflexivity.
Qed.

End Handler_more.

(** ** The further properties on concrete inputs *)

Lemma punycode_witness :
  feature cpython_3_11 "http://www.xn--bcher-kva.example/" "punycode"
  = Ok (Some (VInt 1)).
Proof.
  unfold feature. run_extractor feats E.
  assert (Hparse :
    urlparse cpython_3_11
      (with_scheme (coerce (ArgStr "http://www.xn--bcher-kva.example/")))
    = Ok {| scheme := "http"; netloc := "www.xn--bcher-kva.example";
            path := "/"; params := ""; query := ""; fragment := "" |})
    by (vm_compute; reflexivity).
  cbn [mbind result_bind bind].
  rewrite (punycode_iff_host_contains_marker cpython_3_11 _ _ _ E Hparse).
  reflexivity.
Defined.

Lemma flags_witness :
  feature cpython_3_11 "example.com" "brand_in_path" = Ok (Some (VInt 0)).
Proof.
  unfold feature. run_extractor feats E.
  cbn [mbind result_bind bind].
  rewrite (proj2 (flags_are_zero_or_one cpython_3_11 _ _ E) "brand_in_path");
    [reflexivity|].
  unfold brand_keys. cbn [In]. auto.
Defined.

Lemma counts_bounded_witness :
  feature cpython_3_11 "a.b.c" "length_url" = Ok (Some (VInt 5)).
Proof.
  unfold feature. run_extractor feats E.
  cbn [mbind result_bind bind].
  rewrite (proj1 (counts_bounded_by_length cpython_3_11 _ _ E)).
  reflexivity.
Defined.

Lemma random_domain_witness :
  feature cpython_3_11 "http://bcdfghjklmnpqrstvwxz.example/" "random_domain"
  = Ok (Some (VInt 1)).
Proof.
  unfold feature. run_extractor feats E.
  assert (Hparse :
    urlparse cpython_3_11
      (with_scheme (coerce (ArgStr "http://bcdfghjklmnpqrstvwxz.example/")))
    = Ok {| scheme := "http"; netloc := "bcdfghjklmnpqrstvwxz.example";
            path := "/"; params := ""; query := ""; fragment := "" |})
    by (vm_compute; reflexivity).
  cbn [mbind result_bind bind].
  rewrite (proj1 (random_domain_in_integers cpython_3_11 _ _ _ E Hparse)).
  vm_compute. reflexivity.
Defined.


Lemma port_natural_witness :
  match compute_url_superset_features cpython_3_11
          (ArgStr "http://example.com:8080/")
  with
  | Ok feats =>
      exists port nb_colon,
        feats !! "port" = Some (VInt port)
        /\ feats !! "nb_colon" = Some (VInt nb_colon)
        /\ 0 <= port
        /\ (port <> 0 -> 1 <= nb_colon)
  | Raise _ => False
  end.
Proof.
  run_extractor feats E.
  exact (port_is_natural_and_needs_colon cpython_3_11 _ _ E).
Defined.

Lemma plain_ascii_witness :
  exists feats,
    compute_url_superset_features cpython_3_11
      (ArgStr "http://example.com:8080/login?next=a") = Ok feats
    /\ dom feats = list_to_set FEATURE_KEYS.
Proof.
  apply (extractor_accepts_plain_ascii cpython_3_11).
  - reflexivity.
  - reflexivity.
  - reflexivity.
  - right. vm_compute. lia.
Defined.



Lemma medians_unused_witness :
  extract_features_for_model cpython_3_11 example_files_low
    (ArgStr "example.com") META_PATH
  = extract_features_for_model cpython_3_11 example_files_low_more
      (ArgStr "example.com") META_PATH.
Proof.
  apply (medians_of_extracted_features_unused cpython_3_11
           example_files_low example_files_low_more (ArgStr "example.com")
           META_PATH example_meta_low example_meta_low_more).
  - reflexivity.
  - reflexivity.
  - reflexivity.
  - intros feat Hnot. unfold example_meta_low, example_meta_low_more.
    cbn [meta_medians from_option]. unfold id.
    rewrite lookup_insert_ne; [reflexivity|].
    intros <-. apply Hnot. unfold FEATURE_KEYS. cbn [In]. auto.
Defined.

Lemma predict_exception_witness :
  predict cpython_3_11 example_globals example_files_low unreadable_json_post
  = {| body := ExceptionBody BadRequest; status := 500 |}.
Proof.
  apply (proj1 (predict_reports_exceptions cpython_3_11 example_globals
                  example_files_low unreadable_json_post)).
  reflexivity.
Defined.

Lemma predict_fields_witness :
  member "probabilities"
    (response_fields
       (predict cpython_3_11 example_globals example_files_low
                (form_post " example.com ")))
  = None.
Proof.
  assert (HX :
    extract_features_for_model cpython_3_11 example_files_low
      (ArgStr "example.com") META_PATH
    = Ok {| df_columns := ["length_url"; "web_traffic"];
            df_rows := [[Some (VInt 11); Some (VInt 10)]] |})
    by (vm_compute; reflexivity).
  assert (Hne : "example.com" <> "") by discriminate.
  exact (proj2 (proj1 (predict_success_fields cpython_3_11 example_globals
                         example_files_low (form_post " example.com ")
                         "example.com" _ 0 eq_refl Hne HX eq_refl)
                  eq_refl)).
Defined.

Lemma request_url_trimmed_witness : Str.strip "a b" = "a b".
Proof.
  exact (proj1 (request_url_is_trimmed (json_post "  a b  ") "a b" eq_refl)).
Defined.

Lemma startup_witness :
  exists m doc l,
    example_models !! MODEL_PATH = Some m
    /\ example_files_low !! META_PATH = Some doc
    /\ meta_features doc = Some l
    /\ example_globals = {| model := m; meta := doc; MODEL_FEATURES := l |}.
Proof.
  apply (proj1 (proj1 (startup_needs_features cpython_3_11 example_models
                         example_files_low) example_globals)).
  reflexivity.
Defined.

(** ** The patterns of the extractor *)

Lemma search_monotone (m1 m2 : string -> bool) (s : string) :
  (forall t, m1 t = true -> m2 t = true) ->
  Re.search m1 s = true -> Re.search m2 s = true.
Proof.
  intros Hm. induction s as [|c r IH]; cbn [Re.search]; intros H.
  - apply orb_true_iff in H as [H|H]; [|discriminate].
    rewrite (Hm _ H). reflexivity.
  - apply orb_true_iff in H as [H|H].
    + rewrite (Hm _ H). reflexivity.
    + rewrite (IH H). apply orb_true_r.
Qed.

(** A word of lower-case letters at the start of a text is matched by
    as many [[a-z]] as it has letters. *)
Lemma az_word (word t : string) (rest : string -> bool) :
  Str.all Char.is_az word = true ->
  Str.startswith word t = true ->
  Re.az_times (String.length word) rest t
  = rest (Str.drop (String.length word) t).
Proof.
  revert t. induction word as [|a w IH]; intros t Haz Hstart; [reflexivity|].
  destruct t as [|b t]; [discriminate Hstart|].
  cbn [Str.all] in Haz. apply andb_true_iff in Haz as [Ha Hw].
  cbn [Str.startswith] in Hstart. apply andb_true_iff in Hstart as [Hab Ht].
  apply Ascii.eqb_eq in Hab. subst b.
  cbn [String.length Re.az_times Str.drop]. rewrite Ha. cbn [andb].
  exact (IH t Hw Ht).
Qed.

(** A path that ends in one of the script extensions also matches the
    pattern of a top-level domain in the path. *)
Lemma extension_matches_tld (s : string) :
  Re.extension_at_end s = true -> Re.tld_then_end_or_slash s = true.
Proof.
  unfold Re.extension_at_end, Re.tld_then_end_or_slash, Re.after_dot.
  destruct s as [|c t]; [discriminate|].
  intros H. apply andb_true_iff in H as [Hdot H]. rewrite Hdot. cbn [andb].
  apply existsb_exists in H as (e & Hin & He).
  apply andb_true_iff in He as [Hstart Hend].
  assert (Hword : Str.all Char.is_az e = true
                  /\ (String.length e = 3 \/ String.length e = 4)%nat).
  { unfold Re.extensions in Hin. cbn [In] in Hin.
    repeat (destruct Hin as [<-|Hin]; [split; [reflexivity|cbn; auto]|]).
    contradiction. }
  destruct Hword as [Haz Hlen].
  pose proof (az_word e t
                (fun s => Re.at_end s || Str.startswith "/" s) Haz Hstart)
    as Hmatch.
  cbv beta in Hmatch. rewrite Hend in Hmatch. cbn [orb] in Hmatch.
  unfold Re.az_2_4.
  destruct Hlen as [Hlen|Hlen]; rewrite Hlen in Hmatch; rewrite Hmatch.
  - apply orb_true_iff. left. apply orb_true_r.
  - reflexivity.
Qed.

Lemma search_dot_counts (m : string -> bool) (s : string) :
  Re.search (Re.after_dot m) s = true ->
  1 <= Str.count_if (Char.eqb ".") s.
Proof.
  induction s as [|c r IH]; cbn [Re.search Re.after_dot]; [discriminate|].
  intros H. cbn [Str.count_if].
  pose proof (count_if_nonneg (Char.eqb ".") r).
  apply orb_true_iff in H as [H|H].
  - apply andb_true_iff in H as [Hc _].
    apply Ascii.eqb_eq in Hc. subst c. cbn. lia.
  - specialize (IH H). destruct (Char.eqb "." c); lia.
Qed.

Lemma count_if_first_split (p : ascii -> bool) (c : ascii) (s : string) :
  Str.count_if p (Str.first (Str.split c s)) <= Str.count_if p s.
Proof.
  unfold Str.first.
  induction s as [|d r IH]; cbn [Str.split]; [cbn; lia|].
  pose proof (count_if_nonneg p r).
  destruct (Char.eqb c d).
  - cbn [hd Str.count_if]. destruct (p d); lia.
  - destruct (Str.split c r) as [|q qs]; cbn [hd Str.count_if] in *;
      destruct (p d); lia.
Qed.

Section Pattern_claims.

Variable py : Runtime.

(** X15.  A path that ends in a script extension is also counted as a
    path with a top-level domain: [path_extension] = 1 implies
    [tld_in_path] = 1. *)
Theorem path_extension_implies_tld_in_path (arg : pyarg)
    (feats : gmap string value) :
  compute_url_superset_features py arg = Ok feats ->
  feats !! "path_extension" = Some (VInt 1) ->
  feats !! "tld_in_path" = Some (VInt 1).
Proof.
  intros H. extractor_steps H parsed Hparse.
  dict_read. unfold flag.
  destruct (Re.search Re.extension_at_end (Str.lower (path parsed))) eqn:Hext;
    [|discriminate].
  intros _. dict_read.
  rewrite (search_monotone _ _ _ extension_matches_tld Hext). reflexivity.
Qed.

(** X16.  A top-level domain found in the host means a dot in the host:
    [tld_in_subdomain] = 1 implies [nb_subdomains] >= 1, and so
    [nb_dots] >= 1. *)
Theorem tld_in_subdomain_needs_dot (arg : pyarg)
    (feats : gmap string value) :
  compute_url_superset_features py arg = Ok feats ->
  feats !! "tld_in_subdomain" = Some (VInt 1) ->
  exists nb_subdomains nb_dots,
    feats !! "nb_subdomains" = Some (VInt nb_subdomains)
    /\ feats !! "nb_dots" = Some (VInt nb_dots)
    /\ 1 <= nb_subdomains <= nb_dots.
Proof.
  intros H. extractor_steps H parsed Hparse.
  destruct (host_within_text py (coerce arg) parsed Hparse)
    as (_ & _ & Hcount & _).
  unfold host_of in Hcount.
  pose proof (Hcount "."%char lower_keeps_dot) as Hdots.
  dict_read. unfold flag.
  destruct (Re.search Re.tld
              (Str.first (Str.split ":" (Str.lower (netloc parsed)))))
    eqn:Htld; [|discriminate].
  intros _. do 2 eexists.
  split; [dict_lookup|]. split; [dict_lookup|].
  unfold Re.tld in Htld. apply search_dot_counts in Htld.
  pose proof (count_if_first_split (Char.eqb ".") ":"
                (Str.lower (netloc parsed))) as Hfirst.
  rewrite (count_single ".") in Hdots |- *. lia.
Qed.

End Pattern_claims.

Lemma path_extension_witness :
  feature cpython_3_11 "http://example.com/admin/login.php" "tld_in_path"
  = Ok (Some (VInt 1)).
Proof.
  unfold feature. run_extractor feats E.
  cbn [mbind result_bind bind].
  rewrite (path_extension_implies_tld_in_path cpython_3_11 _ _ E);
    [reflexivity|].
  extractor_steps E parsed Hparse.
  assert (Hp : parsed = {| scheme := "http"; netloc := "example.com";
                           path := "/admin/login.php"; params := "";
                           query := ""; fragment := "" |}).
  { vm_compute in Hparse. apply Ok_inj in Hparse. congruence. }
  subst parsed. dict_lookup.
Defined.

Lemma tld_in_subdomain_witness :
  match compute_url_superset_features cpython_3_11
          (ArgStr "http://paypal.com.example.org/")
  with
  | Ok feats =>
      exists nb_subdomains nb_dots,
        feats !! "nb_subdomains" = Some (VInt nb_subdomains)
        /\ feats !! "nb_dots" = Some (VInt nb_dots)
        /\ 1 <= nb_subdomains <= nb_dots
  | Raise _ => False
  end.
Proof.
  run_extractor feats E.
  apply (tld_in_subdomain_needs_dot cpython_3_11 _ _ E).
  extractor_steps E parsed Hparse.
  assert (Hp : parsed = {| scheme := "http"; netloc := "paypal.com.example.org";
                           path := "/"; params := ""; query := "";
                           fragment := "" |}).
  { vm_compute in Hparse. apply Ok_inj in Hparse. congruence. }
  subst parsed. dict_lookup.
Defined.
